(** * gunicorn_color: the coloured access logger and its handler installer

    A shallow embedding of [src/gunicorn_color.py] (class [Logger]) and the
    properties of its access-log rendering path and of [_set_handler].

    Python objects that the code mutates live in an explicit store: the
    class attribute [CODE_COLOR_MAPPING], the [SafeAtoms] mapping built for
    one request, the handler objects and the handler lists of the logging
    channels.  Exceptions are values of [exn]; a computation is a
    function from the store to an outcome and the store it leaves behind,
    so that writes made before a [raise] stay visible, as in Python. *)

From Stdlib Require Import ZArith QArith Ascii String.
From stdpp Require Import gmap strings list fin_maps functions.

Local Open Scope Z_scope.
Local Open Scope nat_scope.

(** ** Exceptions and computations *)

Inductive exn : Type :=
| KeyError (key : string)            (* plain dict subscript on a missing key *)
| IndexError                         (* [s[0]] on the empty string *)
| ValueError (arg : string)          (* [float(arg)], or a malformed format *)
| MarkupError (markup : string)      (* rich could not read the markup *)
| OtherError (name : string).        (* anything a collaborator raises *)

Inductive outcome (A : Type) : Type :=
| Returns (a : A)
| Raises (e : exn).
Arguments Returns {A} a.
Arguments Raises {A} e.

Definition returned {A} (o : outcome A) : bool :=
  match o with Returns _ => true | Raises _ => false end.

Definition raised {A} (o : outcome A) : bool := negb (returned o).

(** ** Data *)

Definition loc := positive.

(** The contents of a dict of atoms: field names mapped to string values,
    as in the specification's Log Atom Set.  A status that is not a string
    (gunicorn's atoms hold [None] or an int when the response gives no
    status line) has no place in this type. *)
Abbreviation Dict := (gmap string string).

(** rich's [Span] and [Text]: the plain text, the base style and the styled
    ranges. *)
Record Span : Type := mkSpan {
  span_start : nat;
  span_end : nat;
  span_style : string
}.

Record Text : Type := mkText {
  plain : string;
  style : string;
  spans : list Span
}.

(** The row built by [self.log_render(console, renderables, log_time=...,
    time_format=..., level=..., path=..., line_no=..., link_path=...)],
    kept as the arguments of that call. *)
Record LogRow : Type := mkLogRow {
  renderables : list Text;
  log_time : Z;
  time_format : string;
  level : Text;
  path : option string;
  line_no : option nat;
  link_path : option string
}.

(** [self.console]: the rows written so far, and the condition of the
    stream behind it, which decides for each row whether writing it raises. *)
Record Console : Type := mkConsole {
  written : list LogRow;
  fault : LogRow -> option exn
}.

(** Logging handlers.  [RichHandler] carries the constructor arguments the
    source passes; any other handler is known by its class name. *)
Inductive HandlerKind : Type :=
| RichHandler (rich_tracebacks : bool) (log_time_format : string) (show_path : bool)
| ForeignHandler (class_name : string).

(** A handler object: [_gunicorn] is [getattr(h, "_gunicorn", False)],
    [formatter] the format string of the formatter set on it. *)
Record Handler : Type := mkHandler {
  kind : HandlerKind;
  _gunicorn : bool;
  formatter : option string
}.

(** [self.cfg]: the three settings [access] looks at. *)
Record Config : Type := mkConfig {
  accesslog : option string;
  logconfig : option string;
  syslog : bool
}.

(** The logging channels [_set_handler] can be asked to configure. *)
Inductive Channel : Type :=
| ErrorLog                       (* self.error_log *)
| AccessLog                      (* self.access_log *)
| OtherLog (name : string).

#[global] Instance Channel_eq_dec : EqDecision Channel.
Proof. solve_decision. Defined.

(** The store. *)
Record World : Type := mkWorld {
  CODE_COLOR_MAPPING : Dict;           (* class attribute, shared by all calls *)
  heap : gmap loc Dict;                (* SafeAtoms objects *)
  console : Console;
  clock : Z;                           (* what datetime.datetime.now() reads *)
  error_records : list string;         (* messages given to self.error *)
  handler_heap : gmap loc Handler;     (* handler objects *)
  handlers : Channel -> list loc;      (* log.handlers, for each channel *)
  cfg : Config
}.

Definition M (A : Type) : Type := World -> outcome A * World.

Definition ret {A} (a : A) : M A := fun w => (Returns a, w).

Definition raise {A} (e : exn) : M A := fun w => (Raises e, w).

Definition bind {A B} (m : M A) (k : A -> M B) : M B :=
  fun w =>
    match m w with
    | (Returns a, w') => k a w'
    | (Raises e, w') => (Raises e, w')
    end.

Definition lift {A} (o : outcome A) : M A := fun w => (o, w).

Definition get_world : M World := fun w => (Returns w, w).

Definition modify (f : World -> World) : M unit := fun w => (Returns tt, f w).

(** [try: body except: handler(e)] with a bare [except]. *)
Definition try_except (body : M unit) (handler : exn -> M unit) : M unit :=
  fun w =>
    match body w with
    | (Returns u, w') => (Returns u, w')
    | (Raises e, w') => handler e w'
    end.

Declare Scope py_scope.
Delimit Scope py_scope with py.
Notation "x <- m ;; k" := (bind m (fun x => k))
  (at level 100, m at next level, right associativity) : py_scope.
Notation "m ;;; k" := (bind m (fun _ => k))
  (at level 100, right associativity) : py_scope.
Local Open Scope py_scope.

(** Field updates of the store. *)
Definition set_CODE_COLOR_MAPPING (m : Dict) (w : World) : World :=
  mkWorld m (heap w) (console w) (clock w) (error_records w)
          (handler_heap w) (handlers w) (cfg w).

Definition set_heap (h : gmap loc Dict) (w : World) : World :=
  mkWorld (CODE_COLOR_MAPPING w) h (console w) (clock w) (error_records w)
          (handler_heap w) (handlers w) (cfg w).

Definition set_console (c : Console) (w : World) : World :=
  mkWorld (CODE_COLOR_MAPPING w) (heap w) c (clock w) (error_records w)
          (handler_heap w) (handlers w) (cfg w).

Definition set_error_records (l : list string) (w : World) : World :=
  mkWorld (CODE_COLOR_MAPPING w) (heap w) (console w) (clock w) l
          (handler_heap w) (handlers w) (cfg w).

Definition set_handler_heap (h : gmap loc Handler) (w : World) : World :=
  mkWorld (CODE_COLOR_MAPPING w) (heap w) (console w) (clock w) (error_records w)
          h (handlers w) (cfg w).

Definition set_handlers (hs : Channel -> list loc) (w : World) : World :=
  mkWorld (CODE_COLOR_MAPPING w) (heap w) (console w) (clock w) (error_records w)
          (handler_heap w) hs (cfg w).

(** ** Collaborators

    What the module calls but does not define: Python's builtins, rich's
    markup reader, and the gunicorn base class.  The development is stated
    over any implementation of them. *)

(** A Python float: a NaN, an infinity, or a finite double, which is given
    by its exact rational value. *)
Inductive pyfloat : Type :=
| NaN
| Inf (negative : bool)
| Finite (q : Q).

(** [x > n] for a float [x] and an int [n].  Python compares the two
    numbers exactly; a NaN is above nothing. *)
Definition float_gt (x : pyfloat) (n : Z) : bool :=
  match x with
  | NaN => false
  | Inf negative => negb negative
  | Finite q => negb (Qle_bool q (inject_Z n))
  end.

(** The latency test of [colorize_atoms], [float(atoms['L']) > 1]. *)
Definition float_gt_1 (x : pyfloat) : bool := float_gt x 1.

(** [float(s)] ([None] stands for its [ValueError]) and
    [traceback.format_exc()] for the exception being handled. *)
Class Python : Type := {
  float : string -> option pyfloat;
  format_exc : exn -> string
}.

(** [Text.from_markup]. *)
Class Rich : Type := {
  from_markup : string -> outcome Text
}.

(** [GunicornBaseLogger]: [self.atoms(resp, req, environ, request_time)]
    as a function of the request ([Request] stands for the four arguments),
    and the inherited [_set_handler]. *)
Class Gunicorn : Type := {
  Request : Type;
  atoms : Request -> outcome Dict;
  base_set_handler : Channel -> option string -> string -> option string -> M unit
}.

(** ** Strings *)

Definition quote : ascii := Ascii.ascii_of_nat 34.
Definition backslash : ascii := Ascii.ascii_of_nat 92.

(** [value.replace('"', '\\"')] *)
Fixpoint escape_quotes (s : string) : string :=
  match s with
  | EmptyString => EmptyString
  | String c rest =>
      if Ascii.eqb c quote
      then String backslash (String quote (escape_quotes rest))
      else String c (escape_quotes rest)
  end.

(** [str.lower] on ASCII letters. *)
Definition lower_ascii (c : ascii) : ascii :=
  let n := Ascii.nat_of_ascii c in
  if (65 <=? n) && (n <=? 90) then Ascii.ascii_of_nat (n + 32) else c.

Fixpoint lower (s : string) : string :=
  match s with
  | EmptyString => EmptyString
  | String c rest => String (lower_ascii c) (lower rest)
  end.

(** [str.isspace] on ASCII characters. *)
Definition str_is_space (c : ascii) : bool :=
  let n := Ascii.nat_of_ascii c in
  ((9 <=? n) && (n <=? 13)) || ((28 <=? n) && (n <=? 32)).

(** A string without the leading characters that satisfy [f], and without
    the leading and trailing ones. *)
Fixpoint lstrip_with (f : ascii -> bool) (s : string) : string :=
  match s with
  | EmptyString => EmptyString
  | String c rest => if f c then lstrip_with f rest else s
  end.

Definition strip_with (f : ascii -> bool) (s : string) : string :=
  String.rev (lstrip_with f (String.rev (lstrip_with f s))).

(** [str.strip()] *)
Definition str_strip (s : string) : string := strip_with str_is_space s.

(** [sep.join(l)] *)
Fixpoint join (sep : string) (l : list string) : string :=
  match l with
  | [] => ""
  | [x] => x
  | x :: rest => x +:+ sep +:+ join sep rest
  end.

(** [s[0]] *)
Definition first_char (s : string) : outcome string :=
  match s with
  | EmptyString => Raises IndexError
  | String c _ => Returns (String c EmptyString)
  end.

(** Truth value of a setting that is [None] or a string. *)
Definition truthy (o : option string) : bool :=
  match o with
  | None | Some EmptyString => false
  | Some _ => true
  end.

(** ** Mappings *)

(** [d[k]] on a plain dict. *)
Definition dict_getitem (d : Dict) (k : string) : outcome string :=
  match d !! k with
  | Some v => Returns v
  | None => Raises (KeyError k)
  end.

(** gunicorn's [SafeAtoms.__init__]: a new dict holding the atoms, with the
    double quotes of every value escaped. *)
Definition SafeAtoms_init (d : Dict) : Dict := escape_quotes <$> d.

(** gunicorn's [SafeAtoms.__getitem__]: ['-'] for a key that is absent;
    keys that start with a brace are looked up in lower case. *)
Definition SafeAtoms_getitem (d : Dict) (k : string) : string :=
  match k with
  | String "{" _ => default "-" (d !! lower k)
  | _ => default "-" (d !! k)
  end.

(** The mapping stored at a location. *)
Definition deref (w : World) (l : loc) : Dict := default ∅ (heap w !! l).

(** [self.atoms_wrapper_class(atoms)]: a fresh [SafeAtoms] object. *)
Definition atoms_wrapper_class (d : Dict) : M loc :=
  fun w =>
    let l := fresh (dom (heap w)) in
    (Returns l, set_heap (<[l := SafeAtoms_init d]> (heap w)) w).

(** [atoms[key]] and [atoms[key] = v] on a [SafeAtoms] object. *)
Definition getitem (a : loc) (key : string) : M string :=
  fun w => (Returns (SafeAtoms_getitem (deref w a) key), w).

Definition setitem (a : loc) (key v : string) : M unit :=
  modify (fun w => set_heap (<[a := <[key := v]> (deref w a)]> (heap w)) w).

(** ** [%]-formatting with a mapping

    [fmt % mapping] for formats made of text, [%%] and [%(key)s]; any other
    directive is reported as a [ValueError]. *)
Inductive fmt_state : Type :=
| FText                                   (* copying text *)
| FPercent                                (* just after a percent sign *)
| FKey (depth : nat) (key : string)       (* inside the parentheses *)
| FConv (key : string).                   (* key read, conversion expected *)

Definition snoc (s : string) (c : ascii) : string := s +:+ String c EmptyString.

Definition omap' {A B} (f : A -> B) (o : outcome A) : outcome B :=
  match o with Returns a => Returns (f a) | Raises e => Raises e end.

Fixpoint pyformat (st : fmt_state) (fmt : string) (get : string -> outcome string)
  : outcome string :=
  match fmt with
  | EmptyString =>
      match st with
      | FText => Returns EmptyString
      | _ => Raises (ValueError "incomplete format")
      end
  | String c rest =>
      match st with
      | FText =>
          if Ascii.eqb c "%" then pyformat FPercent rest get
          else omap' (String c) (pyformat FText rest get)
      | FPercent =>
          if Ascii.eqb c "%" then omap' (String c) (pyformat FText rest get)
          else if Ascii.eqb c "(" then pyformat (FKey 0 EmptyString) rest get
          else Raises (ValueError "unsupported format character")
      | FKey depth key =>
          if Ascii.eqb c ")" then
            match depth with
            | O => pyformat (FConv key) rest get
            | S d => pyformat (FKey d (snoc key c)) rest get
            end
          else if Ascii.eqb c "(" then pyformat (FKey (S depth) (snoc key c)) rest get
          else pyformat (FKey depth (snoc key c)) rest get
      | FConv key =>
          if Ascii.eqb c "s" then
            match get key with
            | Returns v => omap' (String.append v) (pyformat FText rest get)
            | Raises e => Raises e
            end
          else Raises (ValueError "unsupported format character")
      end
  end.

(** [fmt % atoms] for a [SafeAtoms] object. *)
Definition percent (fmt : string) (a : loc) : M string :=
  fun w => (pyformat FText fmt (fun k => Returns (SafeAtoms_getitem (deref w a) k)), w).

(** ** Class [Logger] *)

Definition CODE_COLOR_MAPPING_init : Dict :=
  <["1" := "yellow"]> (<["2" := "green"]> (<["3" := "cyan"]>
  (<["4" := "magenta"]> (<["5" := "red"]> ∅)))).

Definition LOG_FORMAT : string :=
  "%(m)s %(U)s?%(q)s (%(L)s s) " +:+ String quote "%(f)s" +:+ String quote "".

(** [self.CODE_COLOR_MAPPING.setdefault(k, v)] *)
Definition setdefault (k v : string) : M string :=
  fun w =>
    match CODE_COLOR_MAPPING w !! k with
    | Some x => (Returns x, w)
    | None => (Returns v, set_CODE_COLOR_MAPPING (<[k := v]> (CODE_COLOR_MAPPING w)) w)
    end.

(** [datetime.datetime.now()] *)
Definition datetime_now : M Z := fun w => (Returns (clock w), w).

(** [self.console.print(rendered)] *)
Definition console_print (row : LogRow) : M unit :=
  fun w =>
    match fault (console w) row with
    | Some e => (Raises e, w)
    | None =>
        (Returns tt,
         set_console (mkConsole (written (console w) ++ [row]) (fault (console w))) w)
    end.

(** [self.error(msg)]: the message goes to the error channel. *)
Definition error (msg : string) : M unit :=
  modify (fun w => set_error_records (error_records w ++ [msg]) w).

(** [getattr(h, "_gunicorn", False)] for the handler at a location. *)
Definition tagged (w : World) (l : loc) : bool :=
  match handler_heap w !! l with
  | Some h => _gunicorn h
  | None => false
  end.

(** gunicorn's [_get_gunicorn_handler(log)]: the first tagged handler of
    the channel, or [None]. *)
Definition _get_gunicorn_handler (log : Channel) : M (option loc) :=
  fun w => (Returns (List.find (tagged w) (handlers w log)), w).

(** [list.remove(x)] *)
Fixpoint list_remove (x : loc) (l : list loc) : outcome (list loc) :=
  match l with
  | [] => Raises (ValueError "list.remove(x): x not in list")
  | y :: rest =>
      if bool_decide (y = x) then Returns rest
      else match list_remove x rest with
           | Returns rest' => Returns (y :: rest')
           | Raises e => Raises e
           end
  end.

(** [log.handlers.remove(h)] *)
Definition handlers_remove (log : Channel) (h : loc) : M unit :=
  fun w =>
    match list_remove h (handlers w log) with
    | Returns l => (Returns tt, set_handlers (<[log := l]> (handlers w)) w)
    | Raises e => (Raises e, w)
    end.

(** A new handler object: no [_gunicorn] attribute, no formatter yet. *)
Definition new_handler (k : HandlerKind) : M loc :=
  fun w =>
    let l := fresh (dom (handler_heap w)) in
    (Returns l, set_handler_heap (<[l := mkHandler k false None]> (handler_heap w)) w).

(** [h._gunicorn = v] *)
Definition set_gunicorn (h : loc) (v : bool) : M unit :=
  modify (fun w =>
    set_handler_heap
      (alter (fun o => mkHandler (kind o) v (formatter o)) h (handler_heap w)) w).

(** [h.setFormatter(logging.Formatter(fmt))] *)
Definition setFormatter (h : loc) (fmt : string) : M unit :=
  modify (fun w =>
    set_handler_heap
      (alter (fun o => mkHandler (kind o) (_gunicorn o) (Some fmt)) h (handler_heap w)) w).

(** [log.addHandler(h)]: appended unless already in the list. *)
Definition addHandler (log : Channel) (h : loc) : M unit :=
  modify (fun w =>
    if bool_decide (h ∈ handlers w log) then w
    else set_handlers (<[log := handlers w log ++ [h]]> (handlers w)) w).

Section Logger.
Context {py : Python} {rich : Rich} {gu : Gunicorn}.

(** The closure [wrap_with_color] of [colorize_atoms]. *)
Definition wrap_with_color (a : loc) (key color : string) (attrs : option (list string))
  : M unit :=
  let attr_string :=
    match attrs with
    | Some (x :: l) => " " +:+ join " " (x :: l)
    | _ => ""
    end in
  v <- getitem a key ;;
  setitem a key ("[" +:+ (color +:+ attr_string) +:+ "]" +:+ v +:+ "[/]").

(** [float(s)], raising. *)
Definition py_float (s : string) : M pyfloat :=
  match float s with
  | Some x => ret x
  | None => raise (ValueError s)
  end.

(** [Logger.colorize_atoms(atoms)], lines 47 to 62, on a [SafeAtoms]
    object: the argument is a location, the wrappers write through it, and
    it is what the function returns. *)
Definition colorize_atoms (a : loc) : M loc :=
  wrap_with_color a "U" "cyan" None ;;;
  wrap_with_color a "q" "cyan" None ;;;
  wrap_with_color a "m" "blue" (Some ["bold"]) ;;;
  L <- getitem a "L" ;;
  x <- py_float L ;;
  (if float_gt x 1 then wrap_with_color a "L" "red bold" None else ret tt) ;;;
  ret a.

(** [self.cfg.accesslog or self.cfg.logconfig or self.cfg.syslog] *)
Definition logging_enabled (c : Config) : bool :=
  truthy (accesslog c) || truthy (logconfig c) || syslog c.

(** [Logger.access(resp, req, environ, request_time)], lines 64 to 97. *)
Definition access (r : Request) : M unit :=
  w <- get_world ;;
  if negb (logging_enabled (cfg w)) then ret tt else
  raw <- lift (atoms r) ;;
  safe_atoms <- atoms_wrapper_class raw ;;
  safe_atoms <- colorize_atoms safe_atoms ;;
  markup <- percent LOG_FORMAT safe_atoms ;;
  message_renderable <- lift (from_markup markup) ;;
  s <- lift (dict_getitem raw "s") ;;
  s0 <- lift (first_char s) ;;
  status_color <- setdefault s0 "" ;;
  let status := mkText s ("bold " +:+ status_color) [] in
  now <- datetime_now ;;
  let rendered := mkLogRow [message_renderable] now "[%X]" status None None None in
  try_except (console_print rendered) (fun e => error (format_exc e)).

(** [Logger._set_handler(log, output, fmt, stream)], lines 99 to 114. *)
Definition _set_handler (log : Channel) (output : option string) (fmt : string)
    (stream : option string) : M unit :=
  if bool_decide (log = ErrorLog) || bool_decide (log = AccessLog) then
    h <- _get_gunicorn_handler log ;;
    (match h with
     | Some h => handlers_remove log h
     | None => ret tt
     end) ;;;
    let formatter := "%(message)s" in
    h <- new_handler (RichHandler true "[%X]" (bool_decide (log = ErrorLog))) ;;
    set_gunicorn h true ;;;
    setFormatter h formatter ;;;
    addHandler log h
  else base_set_handler log output fmt stream.

(** [n] calls of the configurator on one channel. *)
Fixpoint configure_times (n : nat) (log : Channel) (output : option string)
    (fmt : string) (stream : option string) : M unit :=
  match n with
  | O => ret tt
  | S n' => _set_handler log output fmt stream ;;; configure_times n' log output fmt stream
  end.

End Logger.

(** ** Reference collaborators

    An executable implementation of each interface, used to run the code on
    concrete requests. *)

Module CPython.

(** The whitespace [float] strips: space, tab, line feed, vertical tab,
    form feed and carriage return. *)
Definition is_space (c : ascii) : bool :=
  let n := nat_of_ascii c in
  ((9 <=? n) && (n <=? 13)) || (n =? 32).

Definition is_digit (c : ascii) : bool :=
  let n := nat_of_ascii c in (48 <=? n) && (n <=? 57).

Definition strip (s : string) : string := strip_with is_space s.

(** Underscores may only stand between two digits; they are dropped.
    [prev] is the previous character, if any. *)
Fixpoint drop_underscores (prev : option ascii) (s : string) : option string :=
  match s with
  | EmptyString =>
      match prev with
      | Some "_"%char => None
      | _ => Some EmptyString
      end
  | String c rest =>
      if Ascii.eqb c "_" then
        match prev with
        | Some p => if is_digit p then drop_underscores (Some c) rest else None
        | None => None
        end
      else
        match prev with
        | Some "_"%char =>
            if is_digit c then option_map (String c) (drop_underscores (Some c) rest)
            else None
        | _ => option_map (String c) (drop_underscores (Some c) rest)
        end
  end.

(** The leading digits of a string, and what follows them. *)
Fixpoint take_digits (s : string) : string * string :=
  match s with
  | EmptyString => (EmptyString, EmptyString)
  | String c rest =>
      if is_digit c then
        let '(d, r) := take_digits rest in (String c d, r)
      else (EmptyString, s)
  end.

Fixpoint digits_value (acc : Z) (s : string) : Z :=
  match s with
  | EmptyString => acc
  | String c rest => digits_value (10 * acc + Z.of_nat (nat_of_ascii c - 48))%Z rest
  end.

(** An optional sign: whether it is a minus, and the rest. *)
Definition take_sign (s : string) : bool * string :=
  match s with
  | String "-" rest => (true, rest)
  | String "+" rest => (false, rest)
  | _ => (false, s)
  end.

(** The exponent part: empty, or [e] or [E], an optional sign and digits. *)
Definition exponent (s : string) : option Z :=
  match s with
  | EmptyString => Some 0%Z
  | String c rest =>
      if Ascii.eqb c "e" || Ascii.eqb c "E" then
        let '(neg, r) := take_sign rest in
        match take_digits r with
        | (String d ds, EmptyString) =>
            let e := digits_value 0 (String d ds) in
            Some (if neg then (- e)%Z else e)
        | _ => None
        end
      else None
  end.

(** Digits, an optional point and digits, an optional exponent; at least
    one digit before the exponent. *)
Definition number (s : string) : option Q :=
  let '(ip, r1) := take_digits s in
  let '(fp, r2) :=
    match r1 with
    | String "." r => take_digits r
    | _ => (EmptyString, r1)
    end in
  match ip +:+ fp with
  | EmptyString => None
  | String _ _ =>
      match exponent r2 with
      | Some e =>
          Some (inject_Z (digits_value 0 (ip +:+ fp))
                * Qpower (inject_Z 10) (e - Z.of_nat (String.length fp)))%Q
      | None => None
      end
  end.

Definition negate (v : pyfloat) : pyfloat :=
  match v with
  | NaN => NaN
  | Inf n => Inf (negb n)
  | Finite q => Finite (- q)%Q
  end.

(** The integer nearest to [n / d], the even one of two that are equally
    near ([0 <= n] and [0 < d]). *)
Definition round_half_even (n d : Z) : Z :=
  let q := (n / d)%Z in
  match (2 * (n mod d) ?= d)%Z with
  | Lt => q
  | Gt => (q + 1)%Z
  | Eq => if Z.even q then q else (q + 1)%Z
  end.

(** The fraction [n / d] divided by [2 ^ e]. *)
Definition scaled (n d e : Z) : Z * Z :=
  if (0 <=? e)%Z then (n, (d * 2 ^ e)%Z) else ((n * 2 ^ (- e))%Z, d).

(** The double nearest to the positive rational [n / d], ties to even:
    53 significant bits, last bit no finer than [2 ^ -1074], and infinity
    when the rounded value reaches [2 ^ 1024]. *)
Definition round_positive (n d : Z) : pyfloat :=
  let e0 := (Z.log2 n - Z.log2 d)%Z in
  let '(n0, d0) := scaled n d e0 in
  let e := if (n0 <? d0)%Z then (e0 - 1)%Z else e0 in
  let p := Z.max (e - 52) (-1074) in
  let '(n1, d1) := scaled n d p in
  let m := round_half_even n1 d1 in
  let v := if (0 <=? p)%Z then inject_Z (m * 2 ^ p)
           else (m # Z.to_pos (2 ^ (- p)))%Q in
  if Qle_bool (inject_Z (2 ^ 1024)) v then Inf false else Finite (Qred v).

(** Correct rounding of a rational to binary64. *)
Definition round (q : Q) : pyfloat :=
  match Qnum q with
  | Z0 => Finite 0
  | Zpos _ => round_positive (Qnum q) (Zpos (Qden q))
  | Zneg _ => negate (round_positive (- Qnum q) (Zpos (Qden q)))
  end.

Definition unsigned (s : string) : option pyfloat :=
  let l := lower s in
  if bool_decide (l = "inf") || bool_decide (l = "infinity") then Some (Inf false)
  else if bool_decide (l = "nan") then Some NaN
  else option_map round (number s).

(** [float(s)] for a string of ASCII characters: the double nearest to the
    decimal value the string spells. *)
Definition parse (s : string) : option pyfloat :=
  match drop_underscores None (strip s) with
  | Some t =>
      let '(neg, r) := take_sign t in
      option_map (fun v => if neg then negate v else v) (unsigned r)
  | None => None
  end.

Definition exception_name (e : exn) : string :=
  match e with
  | KeyError k => "KeyError: " +:+ k
  | IndexError => "IndexError: string index out of range"
  | ValueError a => "ValueError: " +:+ a
  | MarkupError m => "rich.errors.MarkupError: " +:+ m
  | OtherError n => n
  end.

(** The first and the last line of what [traceback.format_exc()] gives for
    an exception; the frame lines between them are left out. *)
Definition traceback (e : exn) : string :=
  "Traceback (most recent call last):" +:+ String (ascii_of_nat 10) (exception_name e).

Definition python : Python :=
  {| float := parse; format_exc := traceback |}.

End CPython.

(** rich's console markup, for printable ASCII text: tags are found as by
    rich's tag pattern (a bracket, a lower-case letter or one of [#/@], text
    without an opening bracket, a closing bracket, with any backslashes in
    front), opening tags push a style, [[/]] and [[/style]] close one, and
    every closed style becomes a span.  Emoji codes and control characters
    are left as written and handler tags are read as style tags. *)
Module Markup.

Inductive token : Type :=
| TText (s : string)
| TTag (name : string) (parameters : option string).

Definition tag_start (c : ascii) : bool :=
  let n := nat_of_ascii c in
  ((97 <=? n) && (n <=? 122)) || Ascii.eqb c "#" || Ascii.eqb c "/" || Ascii.eqb c "@".

(** The text up to the first closing bracket, when no opening bracket comes
    before it, and what follows the bracket. *)
Fixpoint tag_body (s : string) : option (string * string) :=
  match s with
  | EmptyString => None
  | String c rest =>
      if Ascii.eqb c "]" then Some (EmptyString, rest)
      else if Ascii.eqb c "[" then None
      else match tag_body rest with
           | Some (b, r) => Some (String c b, r)
           | None => None
           end
  end.

(** A tag at the head of [s]: its text and the rest. *)
Definition match_tag (s : string) : option (string * string) :=
  match s with
  | String "[" (String c rest) => if tag_start c then tag_body (String c rest) else None
  | _ => None
  end.

Fixpoint take_backslashes (s : string) : nat * string :=
  match s with
  | String c rest =>
      if Ascii.eqb c backslash then
        let '(k, r) := take_backslashes rest in (S k, r)
      else (O, s)
  | EmptyString => (O, s)
  end.

Fixpoint backslashes (k : nat) : string :=
  match k with
  | O => EmptyString
  | S k' => String backslash (backslashes k')
  end.

(** [text.partition("=")]: the part before the first equals sign and, if
    there is one, the part after it. *)
Fixpoint partition_eq (s : string) : string * option string :=
  match s with
  | EmptyString => (EmptyString, None)
  | String c rest =>
      if Ascii.eqb c "=" then (EmptyString, Some rest)
      else let '(a, b) := partition_eq rest in (String c a, b)
  end.

Definition flush (pending : string) : list token :=
  match pending with
  | EmptyString => []
  | _ => [TText pending]
  end.

(** rich's [_parse]: text and tags in order.  [pending] is the text read
    since the last tag; each step consumes input, so fuel above the length
    of the markup is never used up. *)
Fixpoint parse (fuel : nat) (pending : string) (s : string) : list token :=
  match fuel with
  | O => flush pending
  | S fuel' =>
      match s with
      | EmptyString => flush pending
      | String c rest =>
          let '(k, s') := take_backslashes s in
          match match_tag s' with
          | Some (tag_text, after) =>
              flush pending
              ++ (match Nat.div k 2 with
                  | O => []
                  | S b => [TText (backslashes (S b))]
                  end)
              ++ (if Nat.odd k
                  then TText ("[" +:+ tag_text +:+ "]") :: parse fuel' EmptyString after
                  else let '(name, parameters) := partition_eq tag_text in
                       TTag name parameters :: parse fuel' EmptyString after)
          | None =>
              match k with
              | O => parse fuel' (snoc pending c) rest
              | S _ => parse fuel' (pending +:+ backslashes k) s'
              end
          end
      end
  end.

Definition flush_word (cur : string) : list string :=
  match cur with
  | EmptyString => []
  | _ => [cur]
  end.

(** [plain_text.replace("\\[", "[")] *)
Fixpoint unescape (s : string) : string :=
  match s with
  | String c (String "[" rest as tail) =>
      if Ascii.eqb c backslash then String "[" (unescape rest)
      else String c (unescape tail)
  | String c rest => String c (unescape rest)
  | EmptyString => EmptyString
  end.

(** [str.split()] *)
Fixpoint split_go (cur : string) (s : string) : list string :=
  match s with
  | EmptyString => flush_word cur
  | String c rest =>
      if str_is_space c then flush_word cur ++ split_go EmptyString rest
      else split_go (snoc cur c) rest
  end.

Definition split (s : string) : list string := split_go EmptyString s.

(** Style attributes by rich's bit position, under every name rich accepts. *)
Definition attribute_index (word : string) : option nat :=
  if bool_decide (word ∈ ["bold"; "b"]) then Some 0
  else if bool_decide (word ∈ ["dim"; "d"]) then Some 1
  else if bool_decide (word ∈ ["italic"; "i"]) then Some 2
  else if bool_decide (word ∈ ["underline"; "u"]) then Some 3
  else if bool_decide (word = "blink") then Some 4
  else if bool_decide (word = "blink2") then Some 5
  else if bool_decide (word ∈ ["reverse"; "r"]) then Some 6
  else if bool_decide (word ∈ ["conceal"; "c"]) then Some 7
  else if bool_decide (word ∈ ["strike"; "s"]) then Some 8
  else if bool_decide (word ∈ ["underline2"; "uu"]) then Some 9
  else if bool_decide (word = "frame") then Some 10
  else if bool_decide (word = "encircle") then Some 11
  else if bool_decide (word ∈ ["overline"; "o"]) then Some 12
  else None.

Definition attribute_names : list string :=
  ["bold"; "dim"; "italic"; "underline"; "blink"; "blink2"; "reverse"; "conceal";
   "strike"; "underline2"; "frame"; "encircle"; "overline"].

Definition standard_colors : list string :=
  ["default"; "black"; "red"; "green"; "yellow"; "blue"; "magenta"; "cyan"; "white";
   "bright_black"; "bright_red"; "bright_green"; "bright_yellow"; "bright_blue";
   "bright_magenta"; "bright_cyan"; "bright_white"].

(** The attributes set and the colour named by a list of words; [None] when
    a word is neither an attribute nor a standard colour name. *)
Fixpoint read_style (ws : list string) (attrs : list nat) (color : option string)
  : option (list nat * option string) :=
  match ws with
  | [] => Some (attrs, color)
  | w :: rest =>
      let word := lower w in
      match attribute_index word with
      | Some i => read_style rest (i :: attrs) color
      | None =>
          if bool_decide (word ∈ standard_colors) then read_style rest attrs (Some word)
          else None
      end
  end.

(** rich's [Style.normalize] on definitions made of attribute names and
    standard colour names: the attributes in rich's order, then the colour.
    Any other definition is stripped and lower-cased, which is what rich does
    with a definition it cannot read. *)
Definition normalize (style_definition : string) : string :=
  match read_style (split style_definition) [] None with
  | Some (attrs, color) =>
      let names :=
        List.filter (fun n => bool_decide (attribute_index n ∈ (Some <$> attrs)))
                    attribute_names in
      match (names ++ option_list color)%list with
      | [] => "none"
      | l => join " " l
      end
  | None => lower (str_strip style_definition)
  end.

(** An open tag on the style stack: where it starts, its normalised name
    and its parameters. *)
Record open_tag : Type := mkOpen {
  open_start : nat;
  open_name : string;
  open_parameters : option string
}.

(** [str(tag)] *)
Definition tag_str (t : open_tag) : string :=
  match open_parameters t with
  | None => open_name t
  | Some p => open_name t +:+ " " +:+ p
  end.

(** [pop_style]: remove the topmost open tag of that name. *)
Fixpoint pop_style (name : string) (stack : list open_tag)
  : option (open_tag * list open_tag) :=
  match stack with
  | [] => None
  | t :: rest =>
      if bool_decide (open_name t = name) then Some (t, rest)
      else match pop_style name rest with
           | Some (found, rest') => Some (found, t :: rest')
           | None => None
           end
  end.

(** Stable insertion by start position, as [sorted(..., key=start)]. *)
Fixpoint insert_span (x : Span) (l : list Span) : list Span :=
  match l with
  | [] => [x]
  | y :: rest =>
      if span_start x <=? span_start y then x :: l
      else y :: insert_span x rest
  end.

Definition sort_spans (l : list Span) : list Span :=
  List.fold_right insert_span [] l.

(** The spans of the tags still open at the end of the markup, the most
    recently opened first. *)
Definition close_all (text_length : nat) (stack : list open_tag) : list Span :=
  omap (fun t =>
          match tag_str t with
          | EmptyString => None
          | st => Some (mkSpan (open_start t) text_length st)
          end) stack.

(** rich's [render] over the tokens.  [stack] has the most recent open tag
    first and [closed] the spans appended so far, the latest first. *)
Fixpoint render_tokens (ts : list token) (text : string) (stack : list open_tag)
    (closed : list Span) : outcome Text :=
  match ts with
  | [] =>
      let rest := close_all (String.length text) stack in
      Returns (mkText text EmptyString (sort_spans (List.rev rest ++ closed)%list))
  | TText s :: ts' => render_tokens ts' (text +:+ unescape s) stack closed
  | TTag name parameters :: ts' =>
      match name with
      | String "/" after =>
          let style_name := str_strip after in
          let popped :=
            match style_name with
            | EmptyString =>
                match stack with
                | t :: rest => Some (t, rest)
                | [] => None
                end
            | _ => pop_style (normalize style_name) stack
            end in
          match popped with
          | Some (t, stack') =>
              render_tokens ts' text stack'
                (mkSpan (open_start t) (String.length text) (tag_str t) :: closed)
          | None => Raises (MarkupError ("[" +:+ name +:+ "]"))
          end
      | _ =>
          render_tokens ts' text
            (mkOpen (String.length text) (normalize name) parameters :: stack) closed
      end
  end.

(** [Text.from_markup(markup)] *)
Definition render (markup : string) : outcome Text :=
  render_tokens (parse (S (String.length markup)) EmptyString markup)
                EmptyString [] [].

Definition rich : Rich := {| from_markup := render |}.

End Markup.

(** gunicorn's base logger, a request being identified with what
    [self.atoms] yields for it.  The inherited [_set_handler] replaces the
    tagged handler of the channel by a stream or file handler when an output
    is given. *)
Module Glogging.

Definition set_handler (log : Channel) (output : option string) (fmt : string)
    (stream : option string) : M unit :=
  h <- _get_gunicorn_handler log ;;
  (match h with
   | Some h => handlers_remove log h
   | None => ret tt
   end) ;;;
  match output with
  | None => ret tt
  | Some o =>
      h <- new_handler
             (ForeignHandler (if bool_decide (o = "-") then "StreamHandler"
                              else "FileHandler")) ;;
      setFormatter h fmt ;;;
      set_gunicorn h true ;;;
      addHandler log h
  end.

Definition gunicorn : Gunicorn :=
  {| Request := outcome Dict; atoms := fun r => r; base_set_handler := set_handler |}.

End Glogging.

(** ** Worlds to start from *)

(** A console whose stream accepts everything, and one whose stream raises
    [e] on every write. *)
Definition working_console : Console := mkConsole [] (fun _ => None).

Definition broken_console (e : exn) : Console := mkConsole [] (fun _ => Some e).

(** The store when the module has just been loaded: the colour map as
    written in the class body, no objects, no handlers. *)
Definition initial_world (c : Console) (conf : Config) : World :=
  mkWorld CODE_COLOR_MAPPING_init ∅ c 0%Z [] ∅ (fun _ => []) conf.

Definition logging_on : Config := mkConfig (Some "-") None false.

Definition logging_off : Config := mkConfig None None false.

(** ** Vocabulary of the statements *)

(** A value between an opening tag and the closing tag [[/]]. *)
Definition wrap (style_definition v : string) : string :=
  "[" +:+ style_definition +:+ "]" +:+ v +:+ "[/]".

(** What the safe accessor built from the host's atoms gives for a field. *)
Definition atom (raw : Dict) (key : string) : string :=
  SafeAtoms_getitem (SafeAtoms_init raw) key.

(** The mapping [colorize_atoms] leaves behind when it returns; [slow] is
    the outcome of the latency test. *)
Definition colorized (d : Dict) (slow : bool) : Dict :=
  let d3 :=
    <["m" := wrap "blue bold" (SafeAtoms_getitem d "m")]>
      (<["q" := wrap "cyan" (SafeAtoms_getitem d "q")]>
         (<["U" := wrap "cyan" (SafeAtoms_getitem d "U")]> d)) in
  if slow then <["L" := wrap "red bold" (SafeAtoms_getitem d "L")]> d3 else d3.

(** The markup of the message body. *)
Definition message_markup (raw : Dict) (slow : bool) : string :=
  wrap "blue bold" (atom raw "m") +:+ " " +:+ wrap "cyan" (atom raw "U") +:+ "?"
  +:+ wrap "cyan" (atom raw "q") +:+ " ("
  +:+ (if slow then wrap "red bold" (atom raw "L") else atom raw "L")
  +:+ " s) " +:+ String quote (atom raw "f" +:+ String quote EmptyString).

(** The status badge for a status string whose first character is [s0]. *)
Definition status_badge (m : Dict) (s s0 : string) : Text :=
  mkText s ("bold " +:+ default "" (m !! s0)) [].

(** The row [access] hands to the console. *)
Definition rendered_row (w : World) (t : Text) (s s0 : string) : LogRow :=
  mkLogRow [t] (clock w) "[%X]" (status_badge (CODE_COLOR_MAPPING w) s s0)
           None None None.

(** The store when [access] reaches the print: the [SafeAtoms] object of the
    request has been allocated and colorized, and [setdefault] has run. *)
Definition store_at_print (w : World) (raw : Dict) (slow : bool) (s0 : string) : World :=
  mkWorld
    (match CODE_COLOR_MAPPING w !! s0 with
     | Some _ => CODE_COLOR_MAPPING w
     | None => <[s0 := ""]> (CODE_COLOR_MAPPING w)
     end)
    (<[fresh (dom (heap w)) := colorized (SafeAtoms_init raw) slow]> (heap w))
    (console w) (clock w) (error_records w) (handler_heap w) (handlers w) (cfg w).

(** The [try] statement that ends [access]. *)
Definition guarded_print {py : Python} (row : LogRow) : M unit :=
  try_except (console_print row) (fun e => error (format_exc e)).

(** How an access call ends, read off the settings and the request. *)
Definition access_outcome {py : Python} {rich : Rich} {gu : Gunicorn}
    (r : Request) (conf : Config) : outcome unit :=
  if negb (logging_enabled conf) then Returns tt else
  match atoms r with
  | Raises e => Raises e
  | Returns raw =>
      match float (atom raw "L") with
      | None => Raises (ValueError (atom raw "L"))
      | Some x =>
          match from_markup (message_markup raw (float_gt_1 x)) with
          | Raises e => Raises e
          | Returns _ =>
              match raw !! "s" with
              | None => Raises (KeyError "s")
              | Some EmptyString => Raises IndexError
              | Some (String _ _) => Returns tt
              end
          end
      end
  end.

(** The Status-Class Color Map of the specification, on the first character
    of a status. *)
Definition status_class_color (c : ascii) : string :=
  if Ascii.eqb c "1" then "yellow"
  else if Ascii.eqb c "2" then "green"
  else if Ascii.eqb c "3" then "cyan"
  else if Ascii.eqb c "4" then "magenta"
  else if Ascii.eqb c "5" then "red"
  else "".

(** A colour map that answers every lookup-with-default as the map of the
    class body does: it is that map, possibly with further keys bound to
    the empty colour. *)
Definition color_map_ok (m : Dict) : Prop :=
  forall k, m !! k = CODE_COLOR_MAPPING_init !! k
            \/ (CODE_COLOR_MAPPING_init !! k = None /\ m !! k = Some "").

(** The handlers of a channel that carry the marker, and those that do not. *)
Definition adapter_sinks (w : World) (log : Channel) : list loc :=
  List.filter (tagged w) (handlers w log).

Definition foreign_sinks (w : World) (log : Channel) : list loc :=
  List.filter (fun l => negb (tagged w l)) (handlers w log).

(** A list without its first element that satisfies [f]. *)
Fixpoint drop_first (f : loc -> bool) (l : list loc) : list loc :=
  match l with
  | [] => []
  | y :: rest => if f y then rest else y :: drop_first f rest
  end.

(** The handler object the configurator installs on a channel. *)
Definition adapter_handler (log : Channel) : Handler :=
  mkHandler (RichHandler true "[%X]" (bool_decide (log = ErrorLog))) true
            (Some "%(message)s").

(** Every handler attached to the channel is an allocated object. *)
Definition attached_allocated (w : World) (log : Channel) : Prop :=
  forall l, l ∈ handlers w log -> is_Some (handler_heap w !! l).

(** A property of the store that a computation never breaks, whatever its
    outcome. *)
Definition stable {A} (P : World -> Prop) (m : M A) : Prop :=
  forall w, P w -> P (snd (m w)).

(** ** Requests to run the code on *)

Definition health_atoms : Dict :=
  list_to_map [("m", "GET"); ("U", "/health"); ("q", ""); ("L", "0.003");
               ("s", "200"); ("f", "GET /health HTTP/1.1")].

(** The same request, slow and failing. *)
Definition slow_atoms : Dict := <["L" := "2.5"]> (<["s" := "503"]> health_atoms).

(** Atoms without a path and without the [f] field. *)
Definition sparse_atoms : Dict := delete "U" (delete "f" health_atoms).

(** Atoms without a latency, and atoms without a status. *)
Definition atoms_without_latency : Dict := delete "L" health_atoms.

Definition atoms_without_status : Dict := delete "s" health_atoms.

(** A status outside the five classes. *)
Definition odd_status_atoms : Dict := <["s" := "600"]> health_atoms.

(** The store at start-up, with a working console and access logging on. *)
Definition start : World := initial_world working_console logging_on.

(** A latency that is not a number. *)
Definition malformed_latency_atoms : Dict := <["L" := "abc"]> health_atoms.

(** The store at start-up with a console whose stream is a broken pipe. *)
Definition broken_pipe : exn := OtherError "BrokenPipeError: [Errno 32] Broken pipe".

Definition start_broken : World := initial_world (broken_console broken_pipe) logging_on.

(** The store at start-up with every logging destination unset. *)
Definition start_disabled : World := initial_world working_console logging_off.

(** A store holding the safe atoms of the slow request at location 1. *)
Definition slow_store : World :=
  set_heap {[1%positive := SafeAtoms_init slow_atoms]} start.

(** A store whose error channel has a file handler of the host's own,
    untagged, and the tagged stream handler gunicorn installed. *)
Definition host_file_handler : Handler := mkHandler (ForeignHandler "FileHandler") false None.

Definition host_stream_handler : Handler :=
  mkHandler (ForeignHandler "StreamHandler") true (Some "%(message)s").

Definition configured_store : World :=
  set_handlers (fun log => match log with
                           | ErrorLog => [2%positive; 1%positive]
                           | _ => []
                           end)
    (set_handler_heap (<[1%positive := host_stream_handler]>
                         {[2%positive := host_file_handler]}) start).

(** The code run with the reference collaborators. *)
Definition run_access (r : outcome Dict) : M unit :=
  @access CPython.python Markup.rich Glogging.gunicorn r.

Definition run_colorize_atoms (a : loc) : M loc :=
  @colorize_atoms CPython.python a.

Definition run_configure (n : nat) (log : Channel) : M unit :=
  @configure_times Glogging.gunicorn n log (Some "-") "%(message)s" None.

(** Two dicts of atoms that agree on the six fields [access] reads. *)
Definition same_fields (raw1 raw2 : Dict) : Prop :=
  forall k, k ∈ ["m"; "U"; "q"; "L"; "f"; "s"] -> raw1 !! k = raw2 !! k.

(** The health-check atoms with the remote address as well. *)
Definition health_atoms_with_host : Dict := <["h" := "127.0.0.1"]> health_atoms.

(** Stores holding the safe atoms of a request at location 1. *)
Definition health_store : World :=
  set_heap {[1%positive := SafeAtoms_init health_atoms]} start.

Definition malformed_store : World :=
  set_heap {[1%positive := SafeAtoms_init malformed_latency_atoms]} start.

Definition sparse_store : World :=
  set_heap {[1%positive := SafeAtoms_init sparse_atoms]} start.

(** A store whose error channel carries two tagged handlers and, between
    them, an untagged one. *)
Definition doubly_tagged_store : World :=
  set_handlers (fun log => match log with
                           | ErrorLog => [1%positive; 2%positive; 3%positive]
                           | _ => []
                           end)
    (set_handler_heap (<[1%positive := host_stream_handler]>
                         (<[2%positive := host_file_handler]>
                            {[3%positive := host_stream_handler]})) start).

(** ** The safe accessor and the formatter *)

Lemma atom_lookup (raw : Dict) (c : ascii) (k : string) :
  c <> "{"%char ->
  atom raw (String c k) = default "-" (escape_quotes <$> raw !! String c k).
Proof.
  intros Hc. unfold atom, SafeAtoms_getitem, SafeAtoms_init.
  rewrite lookup_fmap.
  destruct c as [[] [] [] [] [] [] [] []]; try reflexivity.
  congruence.
Qed.

Lemma atom_missing (raw : Dict) (c : ascii) (k : string) :
  c <> "{"%char -> raw !! String c k = None -> atom raw (String c k) = "-".
Proof.
  intros Hc Hk. rewrite atom_lookup by assumption. now rewrite Hk.
Qed.

Lemma LOG_FORMAT_percent (g : string -> string) :
  pyformat FText LOG_FORMAT (fun k => Returns (g k))
  = Returns (g "m" +:+ " " +:+ g "U" +:+ "?" +:+ g "q" +:+ " (" +:+ g "L"
             +:+ " s) " +:+ String quote (g "f" +:+ String quote EmptyString)).
Proof. reflexivity. Qed.

Lemma getitem_insert_ne (d : Dict) (c c' : ascii) (v : string) :
  c <> c' -> c' <> "{"%char ->
  SafeAtoms_getitem (<[String c EmptyString := v]> d) (String c' EmptyString)
  = SafeAtoms_getitem d (String c' EmptyString).
Proof.
  intros Hne Hb.
  assert (Hk : String c EmptyString <> String c' EmptyString) by congruence.
  unfold SafeAtoms_getitem.
  destruct c' as [[] [] [] [] [] [] [] []];
    try (rewrite lookup_insert_ne by exact Hk; reflexivity); congruence.
Qed.

Lemma getitem_insert_eq (d : Dict) (c : ascii) (v : string) :
  c <> "{"%char ->
  SafeAtoms_getitem (<[String c EmptyString := v]> d) (String c EmptyString) = v.
Proof.
  intros Hb. unfold SafeAtoms_getitem.
  destruct c as [[] [] [] [] [] [] [] []];
    try (rewrite lookup_insert_eq; reflexivity); congruence.
Qed.

Section Colorize.
Context {py : Python}.

Lemma getitem_run (a : loc) (key : string) (d : Dict) (w : World) :
  heap w !! a = Some d ->
  getitem a key w = (Returns (SafeAtoms_getitem d key), w).
Proof. intros H. unfold getitem, deref. now rewrite H. Qed.

Lemma wrap_with_color_run (a : loc) (key color : string)
    (attrs : option (list string)) (d : Dict) (w : World) :
  heap w !! a = Some d ->
  wrap_with_color a key color attrs w
  = (Returns tt,
     set_heap
       (<[a := <[key := wrap (color +:+ match attrs with
                                        | Some (x :: l) => " " +:+ join " " (x :: l)
                                        | _ => ""
                                        end)
                             (SafeAtoms_getitem d key)]> d]> (heap w)) w).
Proof.
  intros H. unfold wrap_with_color, bind.
  rewrite (getitem_run _ _ _ _ H).
  unfold setitem, modify, deref. now rewrite H.
Qed.

(** The three unconditional wrappers of [colorize_atoms]. *)
Lemma colorize_prefix_run (a : loc) (d : Dict) (w : World) (k : M loc) :
  heap w !! a = Some d ->
  (wrap_with_color a "U" "cyan" None ;;;
   wrap_with_color a "q" "cyan" None ;;;
   wrap_with_color a "m" "blue" (Some ["bold"]) ;;; k) w
  = k (set_heap (<[a := colorized d false]> (heap w)) w).
Proof.
  intros H. unfold bind at 1.
  rewrite (wrap_with_color_run _ _ _ _ _ _ H).
  set (d1 := <["U" := _]> d).
  unfold bind at 1.
  rewrite (wrap_with_color_run a "q" "cyan" None d1) by apply lookup_insert_eq.
  set (d2 := <["q" := _]> d1).
  unfold bind at 1.
  rewrite (wrap_with_color_run a "m" "blue" (Some ["bold"]) d2) by apply lookup_insert_eq.
  f_equal. unfold set_heap; cbn [heap CODE_COLOR_MAPPING console clock error_records
                                 handler_heap handlers cfg].
  f_equal. rewrite !insert_insert_eq. f_equal.
  unfold colorized, d2, d1.
  rewrite !(getitem_insert_ne _ _ _ _) by (intros E; discriminate E).
  reflexivity.
Qed.

Lemma colorized_getitem_L (d : Dict) :
  SafeAtoms_getitem (colorized d false) "L" = SafeAtoms_getitem d "L".
Proof.
  unfold colorized.
  rewrite !(getitem_insert_ne _ _ _ _) by (intros E; discriminate E).
  reflexivity.
Qed.

Lemma colorize_atoms_returns (a : loc) (d : Dict) (x : pyfloat) (w : World) :
  heap w !! a = Some d ->
  float (SafeAtoms_getitem d "L") = Some x ->
  colorize_atoms a w
  = (Returns a, set_heap (<[a := colorized d (float_gt_1 x)]> (heap w)) w).
Proof.
  intros H Hx. unfold colorize_atoms.
  rewrite (colorize_prefix_run _ _ _ _ H).
  set (w3 := set_heap _ w).
  assert (H3 : heap w3 !! a = Some (colorized d false)) by apply lookup_insert_eq.
  unfold bind at 1. rewrite (getitem_run _ _ _ _ H3), colorized_getitem_L.
  unfold bind at 1, py_float. rewrite Hx. unfold ret at 1.
  unfold bind, float_gt_1. destruct (float_gt x 1).
  - rewrite (wrap_with_color_run _ _ _ _ _ _ H3), colorized_getitem_L.
    unfold ret. f_equal. unfold w3, set_heap; cbn [heap CODE_COLOR_MAPPING console clock
      error_records handler_heap handlers cfg].
    now rewrite insert_insert_eq.
  - reflexivity.
Qed.

Lemma colorize_atoms_raises (a : loc) (d : Dict) (w : World) :
  heap w !! a = Some d ->
  float (SafeAtoms_getitem d "L") = None ->
  colorize_atoms a w
  = (Raises (ValueError (SafeAtoms_getitem d "L")),
     set_heap (<[a := colorized d false]> (heap w)) w).
Proof.
  intros H Hx. unfold colorize_atoms.
  rewrite (colorize_prefix_run _ _ _ _ H).
  set (w3 := set_heap _ w).
  assert (H3 : heap w3 !! a = Some (colorized d false)) by apply lookup_insert_eq.
  unfold bind at 1. rewrite (getitem_run _ _ _ _ H3), colorized_getitem_L.
  unfold bind, py_float. now rewrite Hx.
Qed.

End Colorize.

(** ** What the colorized mapping answers *)

Lemma colorized_getitem (d : Dict) (slow : bool) :
  SafeAtoms_getitem (colorized d slow) "U" = wrap "cyan" (SafeAtoms_getitem d "U")
  /\ SafeAtoms_getitem (colorized d slow) "q" = wrap "cyan" (SafeAtoms_getitem d "q")
  /\ SafeAtoms_getitem (colorized d slow) "m" = wrap "blue bold" (SafeAtoms_getitem d "m")
  /\ SafeAtoms_getitem (colorized d slow) "L"
     = (if slow then wrap "red bold" (SafeAtoms_getitem d "L")
        else SafeAtoms_getitem d "L")
  /\ SafeAtoms_getitem (colorized d slow) "f" = SafeAtoms_getitem d "f".
Proof.
  unfold colorized.
  destruct slow; repeat split;
    repeat first
      [ rewrite getitem_insert_eq by (intros E; discriminate E)
      | rewrite getitem_insert_ne by (intros E; discriminate E) ];
    reflexivity.
Qed.

Lemma colorized_lookup_other (d : Dict) (slow : bool) (k : string) :
  k <> "U" -> k <> "q" -> k <> "m" -> k <> "L" ->
  colorized d slow !! k = d !! k.
Proof.
  intros HU Hq Hm HL. unfold colorized.
  destruct slow; now rewrite !lookup_insert_ne by congruence.
Qed.

Lemma colorized_percent (raw : Dict) (slow : bool) :
  pyformat FText LOG_FORMAT
    (fun k => Returns (SafeAtoms_getitem (colorized (SafeAtoms_init raw) slow) k))
  = Returns (message_markup raw slow).
Proof.
  rewrite LOG_FORMAT_percent.
  destruct (colorized_getitem (SafeAtoms_init raw) slow) as (HU & Hq & Hm & HL & Hf).
  rewrite HU, Hq, Hm, HL, Hf. reflexivity.
Qed.

Section Access.
Context {py : Python} {rich : Rich} {gu : Gunicorn}.

Lemma access_disabled (r : Request) (w : World) :
  logging_enabled (cfg w) = false -> access r w = (Returns tt, w).
Proof.
  intros Hoff. unfold access, bind, get_world. now rewrite Hoff.
Qed.

(** The call up to and including colorization. *)
Lemma access_prefix (r : Request) (w : World) :
  logging_enabled (cfg w) = true ->
  access r w
  = (raw <- lift (atoms r) ;;
     safe_atoms <- atoms_wrapper_class raw ;;
     safe_atoms <- colorize_atoms safe_atoms ;;
     markup <- percent LOG_FORMAT safe_atoms ;;
     message_renderable <- lift (from_markup markup) ;;
     s <- lift (dict_getitem raw "s") ;;
     s0 <- lift (first_char s) ;;
     status_color <- setdefault s0 "" ;;
     let status := mkText s ("bold " +:+ status_color) [] in
     now <- datetime_now ;;
     let rendered := mkLogRow [message_renderable] now "[%X]" status None None None in
     try_except (console_print rendered) (fun e => error (format_exc e))) w.
Proof.
  intros Hon. unfold access at 1. unfold bind at 1, get_world. now rewrite Hon.
Qed.

Lemma access_host_atoms_raise (r : Request) (e : exn) (w : World) :
  logging_enabled (cfg w) = true ->
  atoms r = Raises e ->
  access r w = (Raises e, w).
Proof.
  intros Hon He. rewrite access_prefix by assumption.
  unfold bind, lift. now rewrite He.
Qed.

Lemma access_latency_unparsed (r : Request) (raw : Dict) (w : World) :
  logging_enabled (cfg w) = true ->
  atoms r = Returns raw ->
  float (atom raw "L") = None ->
  access r w
  = (Raises (ValueError (atom raw "L")),
     set_heap (<[fresh (dom (heap w)) := colorized (SafeAtoms_init raw) false]> (heap w)) w).
Proof.
  intros Hon Hraw HL. rewrite access_prefix by assumption.
  unfold bind at 1, lift. rewrite Hraw.
  unfold bind at 1, atoms_wrapper_class.
  set (l := fresh (dom (heap w))).
  unfold bind at 1.
  rewrite (colorize_atoms_raises l (SafeAtoms_init raw)); [ | apply lookup_insert_eq | exact HL ].
  f_equal. unfold set_heap; cbn [heap CODE_COLOR_MAPPING console clock error_records
                                 handler_heap handlers cfg].
  now rewrite insert_insert_eq.
Qed.

(** The call from the formatting of the message on, once colorization has
    returned. *)
Lemma access_colorized (r : Request) (raw : Dict) (x : pyfloat) (w : World) :
  logging_enabled (cfg w) = true ->
  atoms r = Returns raw ->
  float (atom raw "L") = Some x ->
  access r w
  = (message_renderable <- lift (from_markup (message_markup raw (float_gt_1 x))) ;;
     s <- lift (dict_getitem raw "s") ;;
     s0 <- lift (first_char s) ;;
     status_color <- setdefault s0 "" ;;
     let status := mkText s ("bold " +:+ status_color) [] in
     now <- datetime_now ;;
     let rendered := mkLogRow [message_renderable] now "[%X]" status None None None in
     try_except (console_print rendered) (fun e => error (format_exc e)))
      (set_heap (<[fresh (dom (heap w)) := colorized (SafeAtoms_init raw) (float_gt_1 x)]>
                   (heap w)) w).
Proof.
  intros Hon Hraw HL. rewrite access_prefix by assumption.
  unfold bind at 1, lift at 1. rewrite Hraw.
  unfold bind at 1, atoms_wrapper_class.
  set (l := fresh (dom (heap w))).
  unfold bind at 1.
  rewrite (colorize_atoms_returns l (SafeAtoms_init raw) x);
    [ | apply lookup_insert_eq | exact HL ].
  unfold bind at 1, percent, deref.
  cbn [heap set_heap].
  rewrite insert_insert_eq, lookup_insert_eq. cbn [default from_option id].
  rewrite colorized_percent.
  reflexivity.
Qed.

Lemma access_reaches_print (r : Request) (raw : Dict) (x : pyfloat) (t : Text)
    (c : ascii) (rest : string) (w : World) :
  logging_enabled (cfg w) = true ->
  atoms r = Returns raw ->
  float (atom raw "L") = Some x ->
  from_markup (message_markup raw (float_gt_1 x)) = Returns t ->
  raw !! "s" = Some (String c rest) ->
  access r w
  = guarded_print (rendered_row w t (String c rest) (String c EmptyString))
      (store_at_print w raw (float_gt_1 x) (String c EmptyString)).
Proof.
  intros Hon Hraw HL Ht Hs.
  rewrite (access_colorized r raw x) by assumption.
  unfold bind at 1, lift at 1. rewrite Ht.
  unfold bind at 1, lift at 1, dict_getitem. rewrite Hs.
  unfold bind at 1, lift at 1, first_char.
  unfold bind at 1, setdefault.
  cbn [heap set_heap CODE_COLOR_MAPPING console clock error_records handler_heap
       handlers cfg].
  unfold guarded_print, rendered_row, status_badge, store_at_print.
  destruct (CODE_COLOR_MAPPING w !! String c EmptyString) as [col|] eqn:Hc;
    unfold bind, datetime_now; reflexivity.
Qed.

Lemma access_markup_unreadable (r : Request) (raw : Dict) (x : pyfloat) (e : exn)
    (w : World) :
  logging_enabled (cfg w) = true ->
  atoms r = Returns raw ->
  float (atom raw "L") = Some x ->
  from_markup (message_markup raw (float_gt_1 x)) = Raises e ->
  fst (access r w) = Raises e.
Proof.
  intros Hon Hraw HL Ht.
  rewrite (access_colorized r raw x) by assumption.
  unfold bind, lift. now rewrite Ht.
Qed.

Lemma access_status_missing (r : Request) (raw : Dict) (x : pyfloat) (t : Text)
    (w : World) :
  logging_enabled (cfg w) = true ->
  atoms r = Returns raw ->
  float (atom raw "L") = Some x ->
  from_markup (message_markup raw (float_gt_1 x)) = Returns t ->
  raw !! "s" = None ->
  fst (access r w) = Raises (KeyError "s").
Proof.
  intros Hon Hraw HL Ht Hs.
  rewrite (access_colorized r raw x) by assumption.
  unfold bind at 1, lift at 1. rewrite Ht.
  unfold bind, lift, dict_getitem. now rewrite Hs.
Qed.

Lemma access_status_empty (r : Request) (raw : Dict) (x : pyfloat) (t : Text)
    (w : World) :
  logging_enabled (cfg w) = true ->
  atoms r = Returns raw ->
  float (atom raw "L") = Some x ->
  from_markup (message_markup raw (float_gt_1 x)) = Returns t ->
  raw !! "s" = Some EmptyString ->
  fst (access r w) = Raises IndexError.
Proof.
  intros Hon Hraw HL Ht Hs.
  rewrite (access_colorized r raw x) by assumption.
  unfold bind at 1, lift at 1. rewrite Ht.
  unfold bind, lift, dict_getitem. now rewrite Hs.
Qed.

End Access.

(** ** The access-log rendering path *)

Section AccessClaims.
Context {py : Python} {rich : Rich} {gu : Gunicorn}.

Lemma guarded_print_returns (row : LogRow) (w : World) :
  fst (guarded_print row w) = Returns tt.
Proof.
  unfold guarded_print, try_except, console_print.
  destruct (fault (console w) row); reflexivity.
Qed.

Lemma guarded_print_accepted (row : LogRow) (w : World) :
  fault (console w) row = None ->
  guarded_print row w
  = (Returns tt,
     set_console (mkConsole (written (console w) ++ [row]) (fault (console w))) w).
Proof.
  intros Hf. unfold guarded_print, try_except, console_print. now rewrite Hf.
Qed.

Lemma guarded_print_refused (row : LogRow) (e : exn) (w : World) :
  fault (console w) row = Some e ->
  guarded_print row w
  = (Returns tt, set_error_records (error_records w ++ [format_exc e]) w).
Proof.
  intros Hf. unfold guarded_print, try_except, console_print. now rewrite Hf.
Qed.

Lemma message_markup_placeholder (raw : Dict) (slow : bool) (k : string) :
  k ∈ ["m"; "U"; "q"; "f"] ->
  raw !! k = None ->
  message_markup raw slow = message_markup (<[k := "-"]> raw) slow.
Proof.
  intros Hk Hnone.
  assert (Hatom : forall c, c <> "{"%char ->
            atom (<[k := "-"]> raw) (String c EmptyString)
            = atom raw (String c EmptyString)).
  { intros c Hc. rewrite !atom_lookup by assumption.
    destruct (decide (k = String c EmptyString)) as [->|Hne].
    - now rewrite lookup_insert_eq, Hnone.
    - now rewrite lookup_insert_ne by assumption. }
  unfold message_markup.
  rewrite !Hatom by (intros E; discriminate E).
  reflexivity.
Qed.

(** C1, amended.  When the latency parses, the host's atoms hold a
    non-empty status and the message is markup rich can read, the access
    call returns without raising, it hands the console a row whose message
    is the formatted markup, and a field among [m], [U], [q], [f] that is
    missing from the atoms is rendered exactly as if the atoms held ['-']
    for it. *)
Theorem access_missing_field_placeholder (r : Request) (raw : Dict) (x : pyfloat)
    (t : Text) (c : ascii) (rest : string) (w : World) :
  logging_enabled (cfg w) = true ->
  atoms r = Returns raw ->
  float (atom raw "L") = Some x ->
  from_markup (message_markup raw (float_gt_1 x)) = Returns t ->
  raw !! "s" = Some (String c rest) ->
  fst (access r w) = Returns tt
  /\ (exists row w', access r w = guarded_print row w' /\ renderables row = [t])
  /\ (forall k, k ∈ ["m"; "U"; "q"; "f"] -> raw !! k = None ->
        atom raw k = "-"
        /\ message_markup raw (float_gt_1 x)
           = message_markup (<[k := "-"]> raw) (float_gt_1 x)).
Proof.
  intros Hon Hraw HL Ht Hs.
  rewrite (access_reaches_print r raw x t c rest) by assumption.
  split; [ apply guarded_print_returns | split ].
  - eexists _, _. split; reflexivity.
  - intros k Hk Hnone. split.
    + rewrite !elem_of_cons in Hk.
      destruct Hk as [->|[->|[->|[->|Hk]]]];
        try (apply atom_missing; [ intros E; discriminate E | exact Hnone ]).
      now apply elem_of_nil in Hk.
    + now apply message_markup_placeholder.
Qed.

(** C3.  When the console raises [e] on the row that [access] has rendered,
    the call still returns normally: nothing reaches the console, and the
    formatted traceback of [e] is handed to [self.error]. *)
Theorem access_print_failure_reported (r : Request) (raw : Dict) (x : pyfloat)
    (t : Text) (c : ascii) (rest : string) (e : exn) (w : World) :
  logging_enabled (cfg w) = true ->
  atoms r = Returns raw ->
  float (atom raw "L") = Some x ->
  from_markup (message_markup raw (float_gt_1 x)) = Returns t ->
  raw !! "s" = Some (String c rest) ->
  fault (console w) (rendered_row w t (String c rest) (String c EmptyString)) = Some e ->
  fst (access r w) = Returns tt
  /\ error_records (snd (access r w)) = error_records w ++ [format_exc e]
  /\ console (snd (access r w)) = console w.
Proof.
  intros Hon Hraw HL Ht Hs Hfault.
  rewrite (access_reaches_print r raw x t c rest) by assumption.
  rewrite (guarded_print_refused _ e) by exact Hfault.
  repeat split.
Qed.

(** C7.  With no access-log destination, no log-config and no syslog
    configured, [access] returns at once: the store is left as it was, and
    the host's atoms are not asked for, whatever they would have been. *)
Theorem access_noop_when_logging_disabled (r : Request) (w : World) :
  truthy (accesslog (cfg w)) = false ->
  truthy (logconfig (cfg w)) = false ->
  syslog (cfg w) = false ->
  access r w = (Returns tt, w).
Proof.
  intros Ha Hl Hs. apply access_disabled.
  unfold logging_enabled. now rewrite Ha, Hl, Hs.
Qed.

(** Every way an access call can end. *)
Lemma access_outcome_correct (r : Request) (w : World) :
  fst (access r w) = access_outcome r (cfg w).
Proof.
  unfold access_outcome.
  destruct (logging_enabled (cfg w)) eqn:Hon; cbn [negb].
  2: { now rewrite access_disabled. }
  destruct (atoms r) as [raw|e] eqn:Hraw.
  2: { now rewrite (access_host_atoms_raise r e). }
  destruct (float (atom raw "L")) as [x|] eqn:HL.
  2: { now rewrite (access_latency_unparsed r raw). }
  destruct (from_markup (message_markup raw (float_gt_1 x))) as [t|e] eqn:Ht.
  2: { now apply (access_markup_unreadable r raw x). }
  destruct (raw !! "s") as [[|c rest]|] eqn:Hs.
  - now apply (access_status_empty r raw x t).
  - rewrite (access_reaches_print r raw x t c rest) by assumption.
    apply guarded_print_returns.
  - now apply (access_status_missing r raw x t).
Qed.

End AccessClaims.

(** ** The colour map across calls *)

Lemma stable_ret {A} (P : World -> Prop) (a : A) : stable P (ret a).
Proof. intros w Hw. exact Hw. Qed.

Lemma stable_raise {A} (P : World -> Prop) (e : exn) : stable P (@raise A e).
Proof. intros w Hw. exact Hw. Qed.

Lemma stable_lift {A} (P : World -> Prop) (o : outcome A) : stable P (lift o).
Proof. intros w Hw. exact Hw. Qed.

Lemma stable_bind {A B} (P : World -> Prop) (m : M A) (k : A -> M B) :
  stable P m -> (forall a, stable P (k a)) -> stable P (bind m k).
Proof.
  intros Hm Hk w Hw. unfold bind.
  specialize (Hm w Hw). destruct (m w) as [[a|e] w']; cbn in *.
  - now apply Hk.
  - exact Hm.
Qed.

Lemma stable_try_except (P : World -> Prop) (body : M unit) (handler : exn -> M unit) :
  stable P body -> (forall e, stable P (handler e)) -> stable P (try_except body handler).
Proof.
  intros Hb Hh w Hw. unfold try_except.
  specialize (Hb w Hw). destruct (body w) as [[u|e] w']; cbn in *.
  - exact Hb.
  - now apply Hh.
Qed.

(** A computation that leaves the colour map alone keeps every property of
    the colour map. *)
Lemma stable_untouched {A} (Q : Dict -> Prop) (m : M A) :
  (forall w, CODE_COLOR_MAPPING (snd (m w)) = CODE_COLOR_MAPPING w) ->
  stable (fun w => Q (CODE_COLOR_MAPPING w)) m.
Proof. intros Hm w Hw. now rewrite Hm. Qed.

Lemma color_map_ok_init : color_map_ok CODE_COLOR_MAPPING_init.
Proof. intros k. now left. Qed.

Lemma color_map_ok_default (m : Dict) (k : string) :
  color_map_ok m -> default "" (m !! k) = default "" (CODE_COLOR_MAPPING_init !! k).
Proof.
  intros Hm. destruct (Hm k) as [->|[Hn ->]]; [ reflexivity | now rewrite Hn ].
Qed.

Lemma color_map_ok_setdefault (m : Dict) (k : string) :
  color_map_ok m -> m !! k = None -> color_map_ok (<[k := ""]> m).
Proof.
  intros Hm Hk k'. destruct (decide (k = k')) as [<-|Hne].
  - right. split; [ | apply lookup_insert_eq ].
    destruct (Hm k) as [E|[E _]]; [ now rewrite <- E | exact E ].
  - rewrite lookup_insert_ne by assumption. apply Hm.
Qed.

Lemma init_color_of_class (c : ascii) :
  default "" (CODE_COLOR_MAPPING_init !! String c EmptyString) = status_class_color c.
Proof.
  destruct c as [[] [] [] [] [] [] [] []]; vm_compute; reflexivity.
Qed.

Lemma setdefault_stable :
  forall k, stable (fun w => color_map_ok (CODE_COLOR_MAPPING w)) (setdefault k "").
Proof.
  intros k w Hw. unfold setdefault.
  destruct (CODE_COLOR_MAPPING w !! k) eqn:Hk; cbn; [ exact Hw | ].
  now apply color_map_ok_setdefault.
Qed.

Section ColorMap.
Context {py : Python} {rich : Rich} {gu : Gunicorn}.

Lemma wrap_with_color_stable (a : loc) (key color : string) (attrs : option (list string)) :
  stable (fun w => color_map_ok (CODE_COLOR_MAPPING w)) (wrap_with_color a key color attrs).
Proof. apply stable_untouched. reflexivity. Qed.

Lemma colorize_atoms_stable (a : loc) :
  stable (fun w => color_map_ok (CODE_COLOR_MAPPING w)) (colorize_atoms a).
Proof.
  unfold colorize_atoms.
  repeat (apply stable_bind; [ apply wrap_with_color_stable | intros _ ]).
  apply stable_bind; [ apply stable_untouched; reflexivity | intros L ].
  apply stable_bind.
  { unfold py_float. destruct (float L); [ apply stable_ret | apply stable_raise ]. }
  intros x. apply stable_bind; [ | intros _; apply stable_ret ].
  destruct (float_gt x 1); [ apply wrap_with_color_stable | apply stable_ret ].
Qed.

(** Every access call, whatever its outcome, leaves a colour map that still
    answers as the map of the class body. *)
Lemma access_stable (r : Request) :
  stable (fun w => color_map_ok (CODE_COLOR_MAPPING w)) (access r).
Proof.
  unfold access.
  apply stable_bind; [ apply stable_untouched; reflexivity | intros w0 ].
  destruct (negb (logging_enabled (cfg w0))); [ apply stable_ret | ].
  apply stable_bind; [ apply stable_lift | intros raw ].
  apply stable_bind; [ apply stable_untouched; reflexivity | intros a ].
  apply stable_bind; [ apply colorize_atoms_stable | intros a' ].
  apply stable_bind; [ apply stable_untouched; reflexivity | intros markup ].
  apply stable_bind; [ apply stable_lift | intros t ].
  apply stable_bind; [ apply stable_lift | intros s ].
  apply stable_bind; [ apply stable_lift | intros s0 ].
  apply stable_bind; [ apply setdefault_stable | intros col ].
  apply stable_bind; [ apply stable_untouched; reflexivity | intros now ].
  apply stable_try_except.
  - apply stable_untouched. intros w. unfold console_print.
    destruct (fault (console w) _); reflexivity.
  - intros e. apply stable_untouched. reflexivity.
Qed.

(** What an access call that reaches the print has done to the colour map:
    nothing when the first character of the status is a key of the map, and
    otherwise that character is now bound to the empty colour. *)
Lemma access_color_map_after (r : Request) (raw : Dict) (x : pyfloat)
    (t : Text) (c : ascii) (rest : string) (w : World) :
  logging_enabled (cfg w) = true ->
  atoms r = Returns raw ->
  float (atom raw "L") = Some x ->
  from_markup (message_markup raw (float_gt_1 x)) = Returns t ->
  raw !! "s" = Some (String c rest) ->
  CODE_COLOR_MAPPING (snd (access r w))
  = match CODE_COLOR_MAPPING w !! String c EmptyString with
    | Some _ => CODE_COLOR_MAPPING w
    | None => <[String c EmptyString := ""]> (CODE_COLOR_MAPPING w)
    end.
Proof.
  intros Hon Hraw HL Ht Hs.
  rewrite (access_reaches_print r raw x t c rest) by assumption.
  unfold guarded_print, try_except, console_print.
  destruct (fault _ _); reflexivity.
Qed.

(** C4.  In a store whose colour map answers as the map of the class body
    (the store at start-up, and every store left by access calls), the
    badge of the row rendered for a status [s] is the text [s] in the style
    "bold" followed by the colour of the class of [s[0]]: yellow, green,
    cyan, magenta, red for 1 to 5, and the empty colour otherwise. *)
Theorem status_badge_color (r : Request) (raw : Dict) (x : pyfloat)
    (t : Text) (c : ascii) (rest : string) (w : World) :
  logging_enabled (cfg w) = true ->
  atoms r = Returns raw ->
  float (atom raw "L") = Some x ->
  from_markup (message_markup raw (float_gt_1 x)) = Returns t ->
  raw !! "s" = Some (String c rest) ->
  color_map_ok (CODE_COLOR_MAPPING w) ->
  exists row w',
    access r w = guarded_print row w'
    /\ level row = mkText (String c rest) ("bold " +:+ status_class_color c) []
    /\ color_map_ok (CODE_COLOR_MAPPING (snd (access r w))).
Proof.
  intros Hon Hraw HL Ht Hs Hok.
  eexists _, _. split; [ | split ].
  - apply (access_reaches_print r raw x t c rest); assumption.
  - cbn [level rendered_row]. unfold status_badge.
    now rewrite (color_map_ok_default _ _ Hok), init_color_of_class.
  - now apply access_stable.
Qed.

End ColorMap.

(** ** Colorization *)

Section ColorizeClaims.
Context {py : Python}.

(** The comparison of a finite float with an int is the strict order of
    the rationals. *)
Lemma float_gt_finite (q : Q) (n : Z) :
  float_gt (Finite q) n = true <-> (inject_Z n < q)%Q.
Proof.
  unfold float_gt. rewrite negb_true_iff. split.
  - intros Hb. apply Qnot_le_lt. intros Hle.
    apply Qle_bool_iff in Hle. congruence.
  - intros Hlt. destruct (Qle_bool q (inject_Z n)) eqn:Hb; [ | reflexivity ].
    apply Qle_bool_iff in Hb. now apply Qlt_not_le in Hlt.
Qed.

Lemma float_gt_finite_not (q : Q) (n : Z) :
  float_gt (Finite q) n = false <-> (q <= inject_Z n)%Q.
Proof.
  unfold float_gt. rewrite negb_false_iff. apply Qle_bool_iff.
Qed.

(** The latency entry after a colorization that returned, by the outcome
    of the test the code makes. *)
Lemma colorize_atoms_latency_entry (a : loc) (d : Dict) (x : pyfloat) (w : World) :
  heap w !! a = Some d ->
  float (SafeAtoms_getitem d "L") = Some x ->
  SafeAtoms_getitem (deref (snd (colorize_atoms a w)) a) "L"
  = if float_gt x 1
    then "[red bold]" +:+ SafeAtoms_getitem d "L" +:+ "[/]"
    else SafeAtoms_getitem d "L".
Proof.
  intros Ha Hx. rewrite (colorize_atoms_returns a d x) by assumption.
  unfold deref. cbn [snd heap set_heap]. rewrite lookup_insert_eq.
  cbn [default from_option id].
  destruct (colorized_getitem d (float_gt_1 x)) as (_ & _ & _ & HL & _).
  rewrite HL. unfold float_gt_1. now destruct (float_gt x 1).
Qed.

(** C5.  For a latency value that [float] accepts, [colorize_atoms] leaves
    the latency field wrapped in the red bold tag when the float is
    strictly greater than 1 (a finite value above 1, or plus infinity), and
    leaves it as it was, without any wrapper, when the float is at most 1
    (a finite value up to 1, or minus infinity) or is a NaN. *)
Theorem latency_red_bold_iff_above_one (a : loc) (d : Dict) (x : pyfloat) (w : World) :
  heap w !! a = Some d ->
  float (SafeAtoms_getitem d "L") = Some x ->
  match x with
  | Finite q =>
      ((1 < q)%Q ->
         SafeAtoms_getitem (deref (snd (colorize_atoms a w)) a) "L"
         = "[red bold]" +:+ SafeAtoms_getitem d "L" +:+ "[/]")
      /\ ((q <= 1)%Q ->
            SafeAtoms_getitem (deref (snd (colorize_atoms a w)) a) "L"
            = SafeAtoms_getitem d "L")
  | Inf negative =>
      SafeAtoms_getitem (deref (snd (colorize_atoms a w)) a) "L"
      = if negative then SafeAtoms_getitem d "L"
        else "[red bold]" +:+ SafeAtoms_getitem d "L" +:+ "[/]"
  | NaN =>
      SafeAtoms_getitem (deref (snd (colorize_atoms a w)) a) "L"
      = SafeAtoms_getitem d "L"
  end.
Proof.
  intros Ha Hx. rewrite (colorize_atoms_latency_entry a d x w Ha Hx).
  destruct x as [|negative|q].
  - reflexivity.
  - now destruct negative.
  - split.
    + intros Hlt. now rewrite (proj2 (float_gt_finite q 1) Hlt).
    + intros Hle. now rewrite (proj2 (float_gt_finite_not q 1) Hle).
Qed.


End ColorizeClaims.

(** ** Malformed latency *)

Section LatencyClaims.
Context {py : Python} {rich : Rich} {gu : Gunicorn}.

(** C8, amended.  With logging enabled and the atoms delivered by the host:
    when the latency value (the stored one, or the placeholder for a missing
    one) is not accepted by [float], the access call raises the conversion
    failure, nothing is printed and nothing is reported through
    [self.error]; and when the atoms hold a non-empty status and the message
    is markup rich can read, the call raises exactly when the latency is not
    accepted by [float]. *)
Theorem malformed_latency_propagates (r : Request) (raw : Dict) (w : World) :
  logging_enabled (cfg w) = true ->
  atoms r = Returns raw ->
  (float (atom raw "L") = None ->
     fst (access r w) = Raises (ValueError (atom raw "L"))
     /\ console (snd (access r w)) = console w
     /\ error_records (snd (access r w)) = error_records w)
  /\ (forall c rest,
        raw !! "s" = Some (String c rest) ->
        (forall x, float (atom raw "L") = Some x ->
           returned (from_markup (message_markup raw (float_gt_1 x))) = true) ->
        (returned (fst (access r w)) = false <-> float (atom raw "L") = None)).
Proof.
  intros Hon Hraw.
  assert (Hnone : float (atom raw "L") = None ->
            access r w
            = (Raises (ValueError (atom raw "L")),
               set_heap (<[fresh (dom (heap w)) := colorized (SafeAtoms_init raw) false]>
                           (heap w)) w)).
  { intros HL. now apply access_latency_unparsed. }
  split.
  - intros HL. rewrite (Hnone HL). repeat split.
  - intros c rest Hs Hmarkup. split.
    + intros Hraised. destruct (float (atom raw "L")) as [x|] eqn:HL; [ | reflexivity ].
      specialize (Hmarkup x eq_refl).
      destruct (from_markup (message_markup raw (float_gt_1 x))) as [t|e] eqn:Ht;
        [ | discriminate Hmarkup ].
      rewrite (access_reaches_print r raw x t c rest) in Hraised by assumption.
      rewrite guarded_print_returns in Hraised. discriminate Hraised.
    + intros HL. now rewrite (Hnone HL).
Qed.

End LatencyClaims.

(** ** Runs with the reference collaborators *)

(** C1 as stated fails.  Atoms without the latency field make the access
    call raise, the placeholder not being a number; atoms without the status
    field make it raise as well, the status being read from the host's dict
    and not through the safe accessor; and so do atoms without the [f]
    field whose path holds a closing tag. *)
Lemma missing_field_raises :
  (atoms_without_latency !! "L" = None
   /\ fst (run_access (Returns atoms_without_latency) start) = Raises (ValueError "-"))
  /\ (atoms_without_status !! "s" = None
      /\ fst (run_access (Returns atoms_without_status) start) = Raises (KeyError "s"))
  /\ (delete "f" (<["U" := "/[/]"]> health_atoms) !! "f" = None
      /\ fst (run_access (Returns (delete "f" (<["U" := "/[/]"]> health_atoms))) start)
         = Raises (MarkupError "[/]")).
Proof. repeat split; vm_compute; reflexivity. Qed.

(** C8 as stated fails: the access call also raises when the latency is a
    number, here for atoms without a status and for a path that holds a
    closing tag. *)
Lemma raises_with_numeric_latency :
  (atom atoms_without_status "L" = "0.003"
   /\ returned (fst (run_access (Returns atoms_without_status) start)) = false)
  /\ (atom (<["U" := "/[/]"]> health_atoms) "L" = "0.003"
      /\ fst (run_access (Returns (<["U" := "/[/]"]> health_atoms)) start)
         = Raises (MarkupError "[/]")).
Proof. repeat split; vm_compute; reflexivity. Qed.

(** C2: a status outside the five classes adds its first character to the
    shared colour map. *)
Theorem unmapped_status_extends_color_map :
  CODE_COLOR_MAPPING start !! "6" = None
  /\ fst (run_access (Returns odd_status_atoms) start) = Returns tt
  /\ CODE_COLOR_MAPPING (snd (run_access (Returns odd_status_atoms) start)) !! "6" = Some ""
  /\ CODE_COLOR_MAPPING (snd (run_access (Returns odd_status_atoms) start))
     <> CODE_COLOR_MAPPING start.
Proof.
  repeat split; try (vm_compute; reflexivity).
  intros E.
  assert (H : CODE_COLOR_MAPPING (snd (run_access (Returns odd_status_atoms) start)) !! "6"
              = CODE_COLOR_MAPPING start !! "6") by now rewrite E.
  vm_compute in H. discriminate H.
Qed.

(** C9.  The health-check request: one row is printed; its badge is the
    status in bold green, its message reads as the claim says, with the
    method in bold blue and the path and the (empty) query in cyan, and the
    latency is left without a wrapper. *)
Theorem health_request_rendered :
  exists t d,
    fst (run_access (Returns health_atoms) start) = Returns tt
    /\ written (console (snd (run_access (Returns health_atoms) start)))
       = [mkLogRow [t] 0 "[%X]" (mkText "200" "bold green" []) None None None]
    /\ plain t = "GET /health? (0.003 s) "
                 +:+ String quote ("GET /health HTTP/1.1" +:+ String quote EmptyString)
    /\ style t = ""
    /\ spans t = [mkSpan 0 3 "bold blue"; mkSpan 4 11 "cyan"; mkSpan 12 12 "cyan"]
    /\ String.substring 0 3 (plain t) = "GET"
    /\ String.substring 4 7 (plain t) = "/health"
    /\ heap (snd (run_access (Returns health_atoms) start)) !! 1%positive = Some d
    /\ d !! "L" = Some "0.003".
Proof.
  exists (mkText ("GET /health? (0.003 s) "
                  +:+ String quote ("GET /health HTTP/1.1" +:+ String quote EmptyString))
                 "" [mkSpan 0 3 "bold blue"; mkSpan 4 11 "cyan"; mkSpan 12 12 "cyan"]).
  exists (colorized (SafeAtoms_init health_atoms) false).
  repeat split; vm_compute; reflexivity.
Qed.

(** The slow, failing variant: red badge, latency wrapped in red bold. *)
Example slow_request_rendered :
  exists t,
    written (console (snd (run_access (Returns slow_atoms) start)))
    = [mkLogRow [t] 0 "[%X]" (mkText "503" "bold red" []) None None None]
    /\ plain t = "GET /health? (2.5 s) "
                 +:+ String quote ("GET /health HTTP/1.1" +:+ String quote EmptyString)
    /\ spans t = [mkSpan 0 3 "bold blue"; mkSpan 4 11 "cyan"; mkSpan 12 12 "cyan";
                  mkSpan 14 17 "bold red"].
Proof.
  eexists. repeat split; vm_compute; reflexivity.
Qed.

(** ** The handler installer *)

Lemma list_remove_found (f : loc -> bool) (l : list loc) (h : loc) :
  List.find f l = Some h -> list_remove h l = Returns (drop_first f l).
Proof.
  induction l as [|y rest IH]; cbn; [ discriminate | ].
  destruct (f y) eqn:Hy.
  - intros [= ->]. now rewrite bool_decide_eq_true_2.
  - intros Hfind. rewrite bool_decide_eq_false_2.
    + now rewrite IH.
    + intros ->. apply List.find_some in Hfind. destruct Hfind as [_ Hh]. congruence.
Qed.

Lemma drop_first_not_found (f : loc -> bool) (l : list loc) :
  List.find f l = None -> drop_first f l = l.
Proof.
  induction l as [|y rest IH]; cbn; [ reflexivity | ].
  destruct (f y); [ discriminate | ]. intros H. now rewrite IH.
Qed.

Lemma drop_first_subset (f : loc -> bool) (l : list loc) (x : loc) :
  x ∈ drop_first f l -> x ∈ l.
Proof.
  induction l as [|y rest IH]; cbn; [ easy | ].
  destruct (f y); rewrite ?elem_of_cons; intuition.
Qed.

Lemma drop_first_tagged_count (f : loc -> bool) (l : list loc) :
  length (List.filter f (drop_first f l)) = Nat.pred (length (List.filter f l)).
Proof.
  induction l as [|y rest IH]; cbn; [ reflexivity | ].
  destruct (f y) eqn:Hy; cbn; rewrite ?Hy; [ reflexivity | exact IH ].
Qed.

Lemma drop_first_foreign (f : loc -> bool) (l : list loc) :
  List.filter (fun x => negb (f x)) (drop_first f l)
  = List.filter (fun x => negb (f x)) l.
Proof.
  induction l as [|y rest IH]; cbn; [ reflexivity | ].
  destruct (f y) eqn:Hy; cbn; rewrite ?Hy; cbn; [ reflexivity | now rewrite IH ].
Qed.

Lemma filter_ext_elem (f g : loc -> bool) (l : list loc) :
  (forall x, x ∈ l -> f x = g x) -> List.filter f l = List.filter g l.
Proof.
  intros H. apply List.filter_ext_in. intros x Hx. apply H. now apply list_elem_of_In.
Qed.

Section Installer.
Context {gu : Gunicorn}.

(** One call of the configurator on the error or the access channel. *)
Lemma set_handler_run (log : Channel) (output : option string) (fmt : string)
    (stream : option string) (w : World) :
  log = ErrorLog \/ log = AccessLog ->
  attached_allocated w log ->
  exists w',
    _set_handler log output fmt stream w = (Returns tt, w')
    /\ handlers w' log
       = drop_first (tagged w) (handlers w log) ++ [fresh (dom (handler_heap w))]
    /\ handler_heap w'
       = <[fresh (dom (handler_heap w)) := adapter_handler log]> (handler_heap w)
    /\ (forall log', log' <> log -> handlers w' log' = handlers w log')
    /\ CODE_COLOR_MAPPING w' = CODE_COLOR_MAPPING w
    /\ heap w' = heap w /\ console w' = console w
    /\ error_records w' = error_records w /\ cfg w' = cfg w.
Proof.
  intros Hown Hall.
  assert (Hb : bool_decide (log = ErrorLog) || bool_decide (log = AccessLog) = true).
  { destruct Hown as [->| ->]; reflexivity. }
  unfold _set_handler. rewrite Hb.
  set (lnew := fresh (dom (handler_heap w))).
  assert (Hfresh : handler_heap w !! lnew = None).
  { apply not_elem_of_dom. apply is_fresh. }
  assert (Hnotin : lnew ∉ drop_first (tagged w) (handlers w log)).
  { intros Hin. apply drop_first_subset, Hall in Hin. rewrite Hfresh in Hin.
    now destruct Hin. }
  unfold bind at 1, _get_gunicorn_handler.
  destruct (List.find (tagged w) (handlers w log)) as [h|] eqn:Hfind.
  - unfold bind at 1, handlers_remove.
    rewrite (list_remove_found _ _ _ Hfind).
    unfold bind, new_handler, set_gunicorn, setFormatter, addHandler, modify.
    cbn [handler_heap handlers set_handlers set_handler_heap CODE_COLOR_MAPPING heap
         console clock error_records cfg].
    rewrite fn_lookup_insert, bool_decide_eq_false_2 by exact Hnotin.
    eexists. split; [ reflexivity | ].
    cbn [handler_heap handlers set_handlers set_handler_heap CODE_COLOR_MAPPING heap
         console clock error_records cfg].
    rewrite fn_lookup_insert, !alter_insert_eq.
    repeat split.
    intros log' Hne. now rewrite !fn_lookup_insert_ne by congruence.
  - rewrite (drop_first_not_found _ _ Hfind) in Hnotin |- *.
    unfold bind, ret, new_handler, set_gunicorn, setFormatter, addHandler, modify.
    cbn [handler_heap handlers set_handlers set_handler_heap CODE_COLOR_MAPPING heap
         console clock error_records cfg].
    rewrite bool_decide_eq_false_2 by exact Hnotin.
    eexists. split; [ reflexivity | ].
    cbn [handler_heap handlers set_handlers set_handler_heap CODE_COLOR_MAPPING heap
         console clock error_records cfg].
    rewrite fn_lookup_insert, !alter_insert_eq.
    repeat split.
    intros log' Hne. now rewrite !fn_lookup_insert_ne by congruence.
Qed.

End Installer.

Section InstallerClaims.
Context {gu : Gunicorn}.

(** What one call does to the channel it configures. *)
Lemma set_handler_step (log : Channel) (output : option string) (fmt : string)
    (stream : option string) (w : World) :
  log = ErrorLog \/ log = AccessLog ->
  attached_allocated w log ->
  fst (_set_handler log output fmt stream w) = Returns tt
  /\ attached_allocated (snd (_set_handler log output fmt stream w)) log
  /\ length (adapter_sinks (snd (_set_handler log output fmt stream w)) log)
     = Nat.max 1 (length (adapter_sinks w log))
  /\ foreign_sinks (snd (_set_handler log output fmt stream w)) log = foreign_sinks w log
  /\ (forall l, is_Some (handler_heap w !! l) ->
        handler_heap (snd (_set_handler log output fmt stream w)) !! l
        = handler_heap w !! l).
Proof.
  intros Hown Hall.
  destruct (set_handler_run log output fmt stream w Hown Hall)
    as (w' & Hrun & Hhs & Hheap & _).
  rewrite Hrun. cbn [fst snd].
  set (lnew := fresh (dom (handler_heap w))) in *.
  assert (Hfresh : handler_heap w !! lnew = None).
  { apply not_elem_of_dom. apply is_fresh. }
  assert (Hold : forall l, is_Some (handler_heap w !! l) ->
                   handler_heap w' !! l = handler_heap w !! l).
  { intros l Hl. rewrite Hheap. apply lookup_insert_ne.
    intros <-. rewrite Hfresh in Hl. now destruct Hl. }
  assert (Htag : forall l, l ∈ drop_first (tagged w) (handlers w log) ->
                   tagged w' l = tagged w l).
  { intros l Hl. unfold tagged. apply drop_first_subset, Hall in Hl. now rewrite Hold. }
  assert (Hnew : tagged w' lnew = true).
  { unfold tagged. rewrite Hheap, lookup_insert_eq. reflexivity. }
  split; [ reflexivity | split; [ | split; [ | split ] ] ].
  - intros l. rewrite Hhs, elem_of_app, list_elem_of_singleton.
    intros [Hl| ->].
    + apply drop_first_subset, Hall in Hl. now rewrite Hold.
    + rewrite Hheap, lookup_insert_eq. eauto.
  - unfold adapter_sinks. rewrite Hhs, List.filter_app, length_app.
    rewrite (filter_ext_elem _ _ _ Htag), drop_first_tagged_count.
    cbn [List.filter]. rewrite Hnew. cbn [length].
    destruct (length (List.filter (tagged w) (handlers w log))); cbn; lia.
  - unfold foreign_sinks. rewrite Hhs, List.filter_app.
    cbn [List.filter]. rewrite Hnew. cbn [negb]. rewrite app_nil_r.
    rewrite (filter_ext_elem _ (fun l => negb (tagged w l))).
    + apply drop_first_foreign.
    + intros l Hl. now rewrite Htag.
  - exact Hold.
Qed.

(** Any number of calls, one after the other. *)
Lemma configure_times_steps (n : nat) (log : Channel) (output : option string)
    (fmt : string) (stream : option string) (w : World) :
  log = ErrorLog \/ log = AccessLog ->
  attached_allocated w log ->
  fst (configure_times n log output fmt stream w) = Returns tt
  /\ attached_allocated (snd (configure_times n log output fmt stream w)) log
  /\ length (adapter_sinks (snd (configure_times n log output fmt stream w)) log)
     = match n with
       | O => length (adapter_sinks w log)
       | S _ => Nat.max 1 (length (adapter_sinks w log))
       end
  /\ foreign_sinks (snd (configure_times n log output fmt stream w)) log
     = foreign_sinks w log
  /\ (forall l, is_Some (handler_heap w !! l) ->
        handler_heap (snd (configure_times n log output fmt stream w)) !! l
        = handler_heap w !! l).
Proof.
  intros Hown. revert w.
  induction n as [|n IH]; intros w Hall.
  - cbn. repeat split; assumption.
  - destruct (set_handler_step log output fmt stream w Hown Hall)
      as (Hret & Hall1 & Hcount1 & Hforeign1 & Hold1).
    cbn [configure_times]. unfold bind.
    destruct (_set_handler log output fmt stream w) as [o w1] eqn:Hrun.
    cbn [fst snd] in *. subst o.
    destruct (IH w1 Hall1) as (Hret' & Hall' & Hcount' & Hforeign' & Hold').
    split; [ exact Hret' | split; [ exact Hall' | split; [ | split ] ] ].
    + rewrite Hcount', Hcount1. destruct n; lia.
    + now rewrite Hforeign'.
    + intros l Hl. rewrite Hold'; [ now apply Hold1 | ].
      rewrite Hold1; assumption.
Qed.

(** C6, amended.  On the error or the access channel, with at most one
    tagged handler attached to begin with (every handler attached being an
    allocated object), one or more calls of the configurator all return,
    and leave exactly one tagged handler on the channel; the handlers
    without the marker are the same as before, in the same order, and the
    objects they denote are unchanged. *)
Theorem configure_leaves_one_adapter_sink (n : nat) (log : Channel)
    (output : option string) (fmt : string) (stream : option string) (w : World) :
  log = ErrorLog \/ log = AccessLog ->
  attached_allocated w log ->
  length (adapter_sinks w log) <= 1 ->
  fst (configure_times (S n) log output fmt stream w) = Returns tt
  /\ length (adapter_sinks (snd (configure_times (S n) log output fmt stream w)) log) = 1
  /\ foreign_sinks (snd (configure_times (S n) log output fmt stream w)) log
     = foreign_sinks w log
  /\ (forall l, l ∈ foreign_sinks w log ->
        l ∈ handlers (snd (configure_times (S n) log output fmt stream w)) log
        /\ handler_heap (snd (configure_times (S n) log output fmt stream w)) !! l
           = handler_heap w !! l).
Proof.
  intros Hown Hall Hone.
  destruct (configure_times_steps (S n) log output fmt stream w Hown Hall)
    as (Hret & _ & Hcount & Hforeign & Hold).
  split; [ exact Hret | split; [ | split; [ exact Hforeign | ] ] ].
  - rewrite Hcount. lia.
  - intros l Hl. split.
    + rewrite <- Hforeign in Hl. unfold foreign_sinks in Hl.
      apply list_elem_of_In, List.filter_In in Hl. now apply list_elem_of_In.
    + apply Hold, Hall. unfold foreign_sinks in Hl.
      apply list_elem_of_In, List.filter_In in Hl. now apply list_elem_of_In.
Qed.

End InstallerClaims.

(** C6 as stated fails: on a channel that carries two tagged handlers a
    call of the configurator detaches the first of them only, so that two
    tagged handlers are attached after one call, and after three. *)
Lemma two_tagged_sinks_remain :
  length (adapter_sinks doubly_tagged_store ErrorLog) = 2
  /\ fst (run_configure 1 ErrorLog doubly_tagged_store) = Returns tt
  /\ length (adapter_sinks (snd (run_configure 1 ErrorLog doubly_tagged_store)) ErrorLog)
     = 2
  /\ length (adapter_sinks (snd (run_configure 3 ErrorLog doubly_tagged_store)) ErrorLog)
     = 2.
Proof. repeat split; vm_compute; reflexivity. Qed.

(** ** The theorems at concrete requests *)

Lemma access_missing_field_placeholder_witness :
  sparse_atoms !! "U" = None
  /\ sparse_atoms !! "f" = None
  /\ fst (run_access (Returns sparse_atoms) start) = Returns tt.
Proof.
  split; [ reflexivity | split; [ reflexivity | ] ].
  refine (proj1 (access_missing_field_placeholder
                   (py := CPython.python) (rich := Markup.rich) (gu := Glogging.gunicorn)
                   (Returns sparse_atoms) sparse_atoms _ _ _ _ start _ _ _ _ _));
    reflexivity.
Defined.

Lemma access_print_failure_reported_witness :
  fst (run_access (Returns health_atoms) start_broken) = Returns tt
  /\ error_records (snd (run_access (Returns health_atoms) start_broken))
     = [] ++ [CPython.traceback broken_pipe]
  /\ console (snd (run_access (Returns health_atoms) start_broken))
     = console start_broken.
Proof.
  refine (access_print_failure_reported
            (py := CPython.python) (rich := Markup.rich) (gu := Glogging.gunicorn)
            (Returns health_atoms) health_atoms _ _ _ _ broken_pipe start_broken
            _ _ _ _ _ _);
    reflexivity.
Defined.

Lemma status_badge_color_witness :
  exists row w',
    run_access (Returns odd_status_atoms) start
    = guarded_print (py := CPython.python) row w'
    /\ level row = mkText (String "6" "00") ("bold " +:+ status_class_color "6") []
    /\ color_map_ok
         (CODE_COLOR_MAPPING (snd (run_access (Returns odd_status_atoms) start))).
Proof.
  refine (status_badge_color
            (py := CPython.python) (rich := Markup.rich) (gu := Glogging.gunicorn)
            (Returns odd_status_atoms) odd_status_atoms _ _ "6" "00" start
            _ _ _ _ _ color_map_ok_init);
    reflexivity.
Defined.

Lemma latency_red_bold_iff_above_one_witness :
  CPython.parse (SafeAtoms_getitem (SafeAtoms_init slow_atoms) "L") = Some (Finite (5 # 2))
  /\ (1 < 5 # 2)%Q
  /\ SafeAtoms_getitem (deref (snd (run_colorize_atoms 1%positive slow_store)) 1%positive) "L"
     = "[red bold]" +:+ SafeAtoms_getitem (SafeAtoms_init slow_atoms) "L" +:+ "[/]".
Proof.
  split; [ reflexivity | split; [ reflexivity | ] ].
  apply (proj1 (latency_red_bold_iff_above_one (py := CPython.python)
                  1%positive (SafeAtoms_init slow_atoms) (Finite (5 # 2)) slow_store
                  eq_refl eq_refl)).
  reflexivity.
Defined.


Lemma access_noop_when_logging_disabled_witness :
  run_access (Raises (OtherError "atoms")) start_disabled = (Returns tt, start_disabled).
Proof.
  apply (access_noop_when_logging_disabled
           (py := CPython.python) (rich := Markup.rich) (gu := Glogging.gunicorn));
    reflexivity.
Defined.

Lemma malformed_latency_propagates_witness :
  fst (run_access (Returns malformed_latency_atoms) start) = Raises (ValueError "abc")
  /\ console (snd (run_access (Returns malformed_latency_atoms) start)) = console start
  /\ error_records (snd (run_access (Returns malformed_latency_atoms) start))
     = error_records start.
Proof.
  apply (proj1 (malformed_latency_propagates
                  (py := CPython.python) (rich := Markup.rich) (gu := Glogging.gunicorn)
                  (Returns malformed_latency_atoms) malformed_latency_atoms start
                  eq_refl eq_refl)).
  reflexivity.
Defined.

Lemma configure_leaves_one_adapter_sink_witness :
  length (adapter_sinks configured_store ErrorLog) = 1
  /\ foreign_sinks configured_store ErrorLog = [2%positive]
  /\ fst (run_configure 2 ErrorLog configured_store) = Returns tt
  /\ length (adapter_sinks (snd (run_configure 2 ErrorLog configured_store)) ErrorLog) = 1
  /\ foreign_sinks (snd (run_configure 2 ErrorLog configured_store)) ErrorLog
     = foreign_sinks configured_store ErrorLog.
Proof.
  split; [ reflexivity | split; [ reflexivity | ] ].
  assert (Hall : attached_allocated configured_store ErrorLog).
  { intros l Hl.
    apply elem_of_cons in Hl as [->|Hl]; [ eexists; reflexivity | ].
    apply elem_of_cons in Hl as [->|Hl]; [ eexists; reflexivity | ].
    now apply elem_of_nil in Hl. }
  destruct (configure_leaves_one_adapter_sink (gu := Glogging.gunicorn)
              1 ErrorLog (Some "-") "%(message)s" None configured_store
              (or_introl eq_refl) Hall (le_n 1))
    as (Hret & Hone & Hforeign & _).
  split; [ exact Hret | split; [ exact Hone | exact Hforeign ] ].
Defined.

(** Configuring a fresh channel twice leaves the one handler of the second
    call; it shows source paths on the error channel only. *)
Example configure_twice_fresh :
  handlers (snd (run_configure 2 ErrorLog start)) ErrorLog = [2%positive]
  /\ handler_heap (snd (run_configure 2 ErrorLog start)) !! 2%positive
     = Some (mkHandler (RichHandler true "[%X]" true) true (Some "%(message)s"))
  /\ handlers (snd (run_configure 2 AccessLog start)) AccessLog = [2%positive]
  /\ handler_heap (snd (run_configure 2 AccessLog start)) !! 2%positive
     = Some (mkHandler (RichHandler true "[%X]" false) true (Some "%(message)s")).
Proof. repeat split; vm_compute; reflexivity. Qed.

(** ** Every path through an access call *)

Section AccessPaths.
Context {py : Python} {rich : Rich} {gu : Gunicorn}.

Lemma access_markup_unreadable_run (r : Request) (raw : Dict) (x : pyfloat) (e : exn)
    (w : World) :
  logging_enabled (cfg w) = true ->
  atoms r = Returns raw ->
  float (atom raw "L") = Some x ->
  from_markup (message_markup raw (float_gt_1 x)) = Raises e ->
  access r w
  = (Raises e,
     set_heap (<[fresh (dom (heap w)) := colorized (SafeAtoms_init raw) (float_gt_1 x)]>
                 (heap w)) w).
Proof.
  intros Hon Hraw HL Ht.
  rewrite (access_colorized r raw x) by assumption.
  unfold bind, lift. now rewrite Ht.
Qed.

Lemma access_status_unreadable_run (r : Request) (raw : Dict) (x : pyfloat) (t : Text)
    (w : World) :
  logging_enabled (cfg w) = true ->
  atoms r = Returns raw ->
  float (atom raw "L") = Some x ->
  from_markup (message_markup raw (float_gt_1 x)) = Returns t ->
  raw !! "s" = None \/ raw !! "s" = Some EmptyString ->
  exists e,
    access r w
    = (Raises e,
       set_heap (<[fresh (dom (heap w)) := colorized (SafeAtoms_init raw) (float_gt_1 x)]>
                   (heap w)) w).
Proof.
  intros Hon Hraw HL Ht Hs.
  rewrite (access_colorized r raw x) by assumption.
  unfold bind at 1, lift at 1. rewrite Ht.
  unfold bind, lift, dict_getitem.
  destruct Hs as [Hs|Hs]; rewrite Hs; eexists; reflexivity.
Qed.

(** The four ways a call can go: logging is off; the host's atoms raise;
    the call raises after colorization has begun; the call reaches the
    guarded print. *)
Lemma access_run_cases (r : Request) (w : World) :
  access r w = (Returns tt, w)
  \/ (exists e, access r w = (Raises e, w))
  \/ (exists raw slow e,
        access r w
        = (Raises e,
           set_heap (<[fresh (dom (heap w)) := colorized (SafeAtoms_init raw) slow]>
                       (heap w)) w))
  \/ (exists raw slow t c rest,
        access r w
        = guarded_print (rendered_row w t (String c rest) (String c EmptyString))
            (store_at_print w raw slow (String c EmptyString))).
Proof.
  destruct (logging_enabled (cfg w)) eqn:Hon.
  2: { left. now apply access_disabled. }
  destruct (atoms r) as [raw|e] eqn:Hraw.
  2: { right; left. exists e. now apply access_host_atoms_raise. }
  destruct (float (atom raw "L")) as [x|] eqn:HL.
  2: { right; right; left. eexists raw, false, _. now apply access_latency_unparsed. }
  destruct (from_markup (message_markup raw (float_gt_1 x))) as [t|e] eqn:Ht.
  2: { right; right; left. eexists raw, _, e.
       now apply (access_markup_unreadable_run r raw x). }
  destruct (raw !! "s") as [[|c rest]|] eqn:Hs.
  - right; right; left.
    destruct (access_status_unreadable_run r raw x t w) as [e He]; auto.
    eexists raw, _, e. exact He.
  - right; right; right. eexists raw, _, t, c, rest.
    now apply (access_reaches_print r raw x t c rest).
  - right; right; left.
    destruct (access_status_unreadable_run r raw x t w) as [e He]; auto.
    eexists raw, _, e. exact He.
Qed.

End AccessPaths.

Section AccessEffects.
Context {py : Python} {rich : Rich} {gu : Gunicorn}.

Lemma guarded_print_effect (row : LogRow) (w : World) :
  CODE_COLOR_MAPPING (snd (guarded_print row w)) = CODE_COLOR_MAPPING w
  /\ heap (snd (guarded_print row w)) = heap w
  /\ handlers (snd (guarded_print row w)) = handlers w
  /\ handler_heap (snd (guarded_print row w)) = handler_heap w
  /\ cfg (snd (guarded_print row w)) = cfg w
  /\ clock (snd (guarded_print row w)) = clock w
  /\ fault (console (snd (guarded_print row w))) = fault (console w).
Proof.
  unfold guarded_print, try_except, console_print.
  destruct (fault (console w) row); repeat split.
Qed.

Lemma fresh_lookup_ne (h : gmap loc Dict) (l : loc) (d d' : Dict) :
  h !! l = Some d -> <[fresh (dom h) := d']> h !! l = Some d.
Proof.
  intros Hl. rewrite lookup_insert_ne; [ exact Hl | ].
  intros <-. apply (is_fresh (dom h)). now apply elem_of_dom_2 in Hl.
Qed.

(** X1.  An access call never touches the handlers, the handler objects,
    the settings or the clock.  Of the mappings in the store it changes
    none: at most it adds one, at a location that was free. *)
Theorem access_allocates_at_most_one_object (r : Request) (w : World) :
  handlers (snd (access r w)) = handlers w
  /\ handler_heap (snd (access r w)) = handler_heap w
  /\ cfg (snd (access r w)) = cfg w
  /\ clock (snd (access r w)) = clock w
  /\ fault (console (snd (access r w))) = fault (console w)
  /\ (heap (snd (access r w)) = heap w
      \/ exists d, heap (snd (access r w)) = <[fresh (dom (heap w)) := d]> (heap w))
  /\ (forall l d, heap w !! l = Some d -> heap (snd (access r w)) !! l = Some d).
Proof.
  destruct (access_run_cases r w)
    as [H|[[e H]|[(raw & slow & e & H)|(raw & slow & t & c & rest & H)]]];
    rewrite H.
  - repeat split; auto.
  - repeat split; auto.
  - cbn [snd handlers handler_heap cfg clock console heap set_heap].
    repeat split; eauto using fresh_lookup_ne.
  - destruct (guarded_print_effect
                (rendered_row w t (String c rest) (String c EmptyString))
                (store_at_print w raw slow (String c EmptyString)))
      as (_ & Hh & Hhs & Hhh & Hcfg & Hclock & Hfault).
    rewrite Hh, Hhs, Hhh, Hcfg, Hclock, Hfault.
    cbn [handlers handler_heap cfg clock console heap store_at_print].
    repeat split; eauto using fresh_lookup_ne.
Qed.

(** X2.  A call that raises has written nothing that is shared: no row on
    the console, no record on the error channel, no entry in the colour
    map. *)
Theorem access_raise_is_silent (r : Request) (e : exn) (w : World) :
  fst (access r w) = Raises e ->
  console (snd (access r w)) = console w
  /\ error_records (snd (access r w)) = error_records w
  /\ CODE_COLOR_MAPPING (snd (access r w)) = CODE_COLOR_MAPPING w.
Proof.
  destruct (access_run_cases r w)
    as [H|[[e' H]|[(raw & slow & e' & H)|(raw & slow & t & c & rest & H)]]];
    rewrite H; intros Hraise.
  - repeat split.
  - repeat split.
  - repeat split.
  - rewrite guarded_print_returns in Hraise. discriminate Hraise.
Qed.

(** X3.  A call reports at most once: either it leaves the console and the
    error channel alone, or it appends one row that the console accepts, or
    it appends to the error channel the traceback of what the console
    raised on one row.  Rows and records already there are kept. *)
Theorem access_reports_at_most_once (r : Request) (w : World) :
  (console (snd (access r w)) = console w
   /\ error_records (snd (access r w)) = error_records w)
  \/ (exists row,
        fault (console w) row = None
        /\ written (console (snd (access r w))) = written (console w) ++ [row]
        /\ error_records (snd (access r w)) = error_records w)
  \/ (exists row e,
        fault (console w) row = Some e
        /\ console (snd (access r w)) = console w
        /\ error_records (snd (access r w)) = error_records w ++ [format_exc e]).
Proof.
  destruct (access_run_cases r w)
    as [H|[[e H]|[(raw & slow & e & H)|(raw & slow & t & c & rest & H)]]];
    rewrite H.
  - left. split; reflexivity.
  - left. split; reflexivity.
  - left. split; reflexivity.
  - set (row := rendered_row w t (String c rest) (String c EmptyString)).
    destruct (fault (console w) row) as [e|] eqn:Hf.
    + right; right. exists row, e. split; [ exact Hf | ].
      rewrite (guarded_print_refused row e) by exact Hf. split; reflexivity.
    + right; left. exists row. split; [ exact Hf | ].
      rewrite (guarded_print_accepted row) by exact Hf. split; reflexivity.
Qed.

(** X4.  The colour map only grows: after a call every entry it had is
    still there with the same colour, and an entry that is new is a
    one-character key bound to the empty colour. *)
Theorem access_color_map_grows (r : Request) (w : World) :
  CODE_COLOR_MAPPING w ⊆ CODE_COLOR_MAPPING (snd (access r w))
  /\ (forall k v,
        CODE_COLOR_MAPPING (snd (access r w)) !! k = Some v ->
        CODE_COLOR_MAPPING w !! k = Some v
        \/ (CODE_COLOR_MAPPING w !! k = None /\ v = "" /\ String.length k = 1)).
Proof.
  destruct (access_run_cases r w)
    as [H|[[e H]|[(raw & slow & e & H)|(raw & slow & t & c & rest & H)]]];
    rewrite H.
  - split; [ reflexivity | intros k v Hk; now left ].
  - split; [ reflexivity | intros k v Hk; now left ].
  - split; [ reflexivity | intros k v Hk; now left ].
  - destruct (guarded_print_effect
                (rendered_row w t (String c rest) (String c EmptyString))
                (store_at_print w raw slow (String c EmptyString))) as (Hm & _).
    rewrite Hm. cbn [CODE_COLOR_MAPPING store_at_print].
    destruct (CODE_COLOR_MAPPING w !! String c EmptyString) as [col|] eqn:Hc.
    + split; [ reflexivity | intros k v Hk; now left ].
    + split; [ now apply insert_subseteq | ].
      intros k v Hk. destruct (decide (String c EmptyString = k)) as [<-|Hne].
      * rewrite lookup_insert_eq in Hk. injection Hk as <-. right. now repeat split.
      * rewrite lookup_insert_ne in Hk by exact Hne. now left.
Qed.

(** X5.  When the console accepts the rendered row, the call returns, that
    row is the one appended to the console, and the error channel receives
    nothing. *)
Theorem access_prints_rendered_row (r : Request) (raw : Dict) (x : pyfloat)
    (t : Text) (c : ascii) (rest : string) (w : World) :
  logging_enabled (cfg w) = true ->
  atoms r = Returns raw ->
  float (atom raw "L") = Some x ->
  from_markup (message_markup raw (float_gt_1 x)) = Returns t ->
  raw !! "s" = Some (String c rest) ->
  fault (console w) (rendered_row w t (String c rest) (String c EmptyString)) = None ->
  fst (access r w) = Returns tt
  /\ written (console (snd (access r w)))
     = written (console w)
       ++ [mkLogRow [t] (clock w) "[%X]"
             (mkText (String c rest)
                ("bold " +:+ default "" (CODE_COLOR_MAPPING w !! String c EmptyString)) [])
             None None None]
  /\ error_records (snd (access r w)) = error_records w.
Proof.
  intros Hon Hraw HL Ht Hs Hf.
  rewrite (access_reaches_print r raw x t c rest) by assumption.
  rewrite guarded_print_accepted by exact Hf.
  repeat split.
Qed.

End AccessEffects.

Lemma same_fields_atom (raw1 raw2 : Dict) (k : string) :
  same_fields raw1 raw2 ->
  k ∈ ["m"; "U"; "q"; "L"; "f"] ->
  atom raw1 k = atom raw2 k.
Proof.
  intros Hsame Hk.
  rewrite !elem_of_cons in Hk.
  destruct Hk as [->|[->|[->|[->|[->|Hk]]]]];
    try (rewrite !atom_lookup by (intros E; discriminate E);
         rewrite Hsame by set_solver; reflexivity).
  now apply elem_of_nil in Hk.
Qed.

Lemma same_fields_message (raw1 raw2 : Dict) (slow : bool) :
  same_fields raw1 raw2 -> message_markup raw1 slow = message_markup raw2 slow.
Proof.
  intros Hsame. unfold message_markup.
  rewrite (same_fields_atom raw1 raw2 "m"), (same_fields_atom raw1 raw2 "U"),
    (same_fields_atom raw1 raw2 "q"), (same_fields_atom raw1 raw2 "L"),
    (same_fields_atom raw1 raw2 "f") by (assumption || set_solver).
  reflexivity.
Qed.

Section AccessInputs.
Context {py : Python} {rich : Rich} {gu : Gunicorn}.

Lemma access_status_missing_run (r : Request) (raw : Dict) (x : pyfloat) (t : Text)
    (w : World) :
  logging_enabled (cfg w) = true ->
  atoms r = Returns raw ->
  float (atom raw "L") = Some x ->
  from_markup (message_markup raw (float_gt_1 x)) = Returns t ->
  raw !! "s" = None ->
  access r w
  = (Raises (KeyError "s"),
     set_heap (<[fresh (dom (heap w)) := colorized (SafeAtoms_init raw) (float_gt_1 x)]>
                 (heap w)) w).
Proof.
  intros Hon Hraw HL Ht Hs.
  rewrite (access_colorized r raw x) by assumption.
  unfold bind at 1, lift at 1. rewrite Ht.
  unfold bind, lift, dict_getitem. now rewrite Hs.
Qed.

Lemma access_status_empty_run (r : Request) (raw : Dict) (x : pyfloat) (t : Text)
    (w : World) :
  logging_enabled (cfg w) = true ->
  atoms r = Returns raw ->
  float (atom raw "L") = Some x ->
  from_markup (message_markup raw (float_gt_1 x)) = Returns t ->
  raw !! "s" = Some EmptyString ->
  access r w
  = (Raises IndexError,
     set_heap (<[fresh (dom (heap w)) := colorized (SafeAtoms_init raw) (float_gt_1 x)]>
                 (heap w)) w).
Proof.
  intros Hon Hraw HL Ht Hs.
  rewrite (access_colorized r raw x) by assumption.
  unfold bind at 1, lift at 1. rewrite Ht.
  unfold bind, lift, dict_getitem. now rewrite Hs.
Qed.

(** X6.  Of the host's atoms an access call reads the six fields [m], [U],
    [q], [L], [f] and [s] only: two requests whose atoms agree on these end
    the same way and leave the same console, error channel and colour
    map. *)
Theorem access_reads_six_fields (r1 r2 : Request) (raw1 raw2 : Dict) (w : World) :
  atoms r1 = Returns raw1 ->
  atoms r2 = Returns raw2 ->
  same_fields raw1 raw2 ->
  fst (access r1 w) = fst (access r2 w)
  /\ console (snd (access r1 w)) = console (snd (access r2 w))
  /\ error_records (snd (access r1 w)) = error_records (snd (access r2 w))
  /\ CODE_COLOR_MAPPING (snd (access r1 w)) = CODE_COLOR_MAPPING (snd (access r2 w)).
Proof.
  intros Hraw1 Hraw2 Hsame.
  assert (HL : atom raw1 "L" = atom raw2 "L")
    by (apply same_fields_atom; [ assumption | set_solver ]).
  assert (Hs : raw1 !! "s" = raw2 !! "s") by (apply Hsame; set_solver).
  destruct (logging_enabled (cfg w)) eqn:Hon.
  2: { rewrite !access_disabled by assumption. repeat split. }
  destruct (float (atom raw1 "L")) as [x|] eqn:Hx.
  2: { rewrite (access_latency_unparsed r1 raw1), (access_latency_unparsed r2 raw2)
         by (assumption || now rewrite <- HL).
       rewrite HL. repeat split. }
  assert (Hx2 : float (atom raw2 "L") = Some x) by now rewrite <- HL.
  assert (Hm : message_markup raw1 (float_gt_1 x) = message_markup raw2 (float_gt_1 x))
    by now apply same_fields_message.
  destruct (from_markup (message_markup raw1 (float_gt_1 x))) as [t|e] eqn:Ht.
  2: { rewrite (access_markup_unreadable_run r1 raw1 x e),
         (access_markup_unreadable_run r2 raw2 x e)
         by (assumption || now rewrite <- Hm).
       repeat split. }
  assert (Ht2 : from_markup (message_markup raw2 (float_gt_1 x)) = Returns t)
    by now rewrite <- Hm.
  destruct (raw1 !! "s") as [[|c rest]|] eqn:Hs1; symmetry in Hs.
  - rewrite (access_status_empty_run r1 raw1 x t), (access_status_empty_run r2 raw2 x t)
      by assumption.
    repeat split.
  - rewrite (access_reaches_print r1 raw1 x t c rest),
      (access_reaches_print r2 raw2 x t c rest) by assumption.
    unfold guarded_print, try_except, console_print.
    cbn [console store_at_print].
    destruct (fault (console w) _); repeat split.
  - rewrite (access_status_missing_run r1 raw1 x t),
      (access_status_missing_run r2 raw2 x t) by assumption.
    repeat split.
Qed.

End AccessInputs.

(** ** More on colorization *)

Section ColorizeEffects.
Context {py : Python}.

(** X7.  When the latency is not a number, [colorize_atoms] raises with
    the mapping already changed: [U], [q] and [m] hold their wrapped values,
    every other entry, [L] included, is as before. *)
Theorem colorize_atoms_failure_keeps_wrappers (a : loc) (d : Dict) (w : World) :
  heap w !! a = Some d ->
  float (SafeAtoms_getitem d "L") = None ->
  exists d',
    colorize_atoms a w
    = (Raises (ValueError (SafeAtoms_getitem d "L")),
       set_heap (<[a := d']> (heap w)) w)
    /\ d' !! "U" = Some ("[cyan]" +:+ SafeAtoms_getitem d "U" +:+ "[/]")
    /\ d' !! "q" = Some ("[cyan]" +:+ SafeAtoms_getitem d "q" +:+ "[/]")
    /\ d' !! "m" = Some ("[blue bold]" +:+ SafeAtoms_getitem d "m" +:+ "[/]")
    /\ (forall k, k ∉ ["U"; "q"; "m"] -> d' !! k = d !! k).
Proof.
  intros Ha Hx. exists (colorized d false).
  split; [ now apply colorize_atoms_raises | ].
  unfold colorized. repeat split;
    try (now rewrite ?lookup_insert_eq;
         repeat (rewrite lookup_insert_ne by discriminate; rewrite ?lookup_insert_eq)).
  intros k Hk. rewrite !lookup_insert_ne; [ reflexivity | .. ];
    intros <-; apply Hk; set_solver.
Qed.

(** X8.  Colorizing a mapping a second time nests the wrappers: for a
    latency that is not above 1 the second call returns as well, and [U],
    [q] and [m] then carry their tag twice. *)
Theorem colorize_atoms_twice_nests (a : loc) (d : Dict) (x : pyfloat) (w : World) :
  heap w !! a = Some d ->
  float (SafeAtoms_getitem d "L") = Some x ->
  float_gt_1 x = false ->
  exists d'',
    colorize_atoms a (snd (colorize_atoms a w))
    = (Returns a, set_heap (<[a := d'']> (heap w)) w)
    /\ d'' !! "U"
       = Some ("[cyan]" +:+ ("[cyan]" +:+ SafeAtoms_getitem d "U" +:+ "[/]") +:+ "[/]")
    /\ d'' !! "q"
       = Some ("[cyan]" +:+ ("[cyan]" +:+ SafeAtoms_getitem d "q" +:+ "[/]") +:+ "[/]")
    /\ d'' !! "m"
       = Some ("[blue bold]" +:+ ("[blue bold]" +:+ SafeAtoms_getitem d "m" +:+ "[/]")
               +:+ "[/]")
    /\ d'' !! "L" = d !! "L".
Proof.
  intros Ha Hx Hslow.
  rewrite (colorize_atoms_returns a d x w) by assumption. rewrite Hslow.
  cbn [snd].
  set (d1 := colorized d false).
  assert (HL1 : float (SafeAtoms_getitem d1 "L") = Some x).
  { unfold d1. now rewrite colorized_getitem_L. }
  rewrite (colorize_atoms_returns a d1 x); [ | apply lookup_insert_eq | exact HL1 ].
  rewrite Hslow. exists (colorized d1 false).
  split.
  { unfold set_heap. cbn [heap CODE_COLOR_MAPPING console clock error_records
                          handler_heap handlers cfg].
    now rewrite insert_insert_eq. }
  destruct (colorized_getitem d false) as (HU & Hq & Hm & _ & _).
  fold d1 in HU, Hq, Hm.
  unfold colorized at 1 2 3 4. rewrite HU, Hq, Hm.
  repeat split;
    try (now rewrite ?lookup_insert_eq;
         repeat (rewrite lookup_insert_ne by discriminate; rewrite ?lookup_insert_eq)).
  unfold d1, colorized. now rewrite !lookup_insert_ne by discriminate.
Qed.

(** X9.  For a latency above 1 a second colorization fails: the latency
    entry now holds the wrapped text, and when [float] does not accept that
    text the second call raises the conversion failure on it. *)
Theorem colorize_atoms_twice_slow_raises (a : loc) (d : Dict) (x : pyfloat) (w : World) :
  heap w !! a = Some d ->
  float (SafeAtoms_getitem d "L") = Some x ->
  float_gt_1 x = true ->
  float ("[red bold]" +:+ SafeAtoms_getitem d "L" +:+ "[/]") = None ->
  fst (colorize_atoms a (snd (colorize_atoms a w)))
  = Raises (ValueError ("[red bold]" +:+ SafeAtoms_getitem d "L" +:+ "[/]")).
Proof.
  intros Ha Hx Hslow Hwrapped.
  rewrite (colorize_atoms_returns a d x w) by assumption. rewrite Hslow.
  cbn [snd].
  destruct (colorized_getitem d true) as (_ & _ & _ & HL & _).
  rewrite (colorize_atoms_raises a (colorized d true));
    [ | apply lookup_insert_eq | now rewrite HL ].
  cbn [fst]. now rewrite HL.
Qed.

(** X10.  Colorization creates the entries it wraps: afterwards the keys
    of the mapping are those it had together with [U], [q] and [m] (and [L]
    when the latency is above 1), and a field among [U], [q], [m] that was
    absent now holds the wrapped placeholder. *)
Theorem colorize_atoms_adds_missing_fields (a : loc) (d : Dict) (x : pyfloat)
    (w : World) :
  heap w !! a = Some d ->
  float (SafeAtoms_getitem d "L") = Some x ->
  exists d',
    heap (snd (colorize_atoms a w)) !! a = Some d'
    /\ dom d' = dom d ∪ {["U"; "q"; "m"]} ∪ (if float_gt_1 x then {["L"]} else ∅)
    /\ (d !! "U" = None -> d' !! "U" = Some "[cyan]-[/]")
    /\ (d !! "q" = None -> d' !! "q" = Some "[cyan]-[/]")
    /\ (d !! "m" = None -> d' !! "m" = Some "[blue bold]-[/]").
Proof.
  intros Ha Hx. rewrite (colorize_atoms_returns a d x) by assumption.
  exists (colorized d (float_gt_1 x)).
  split; [ apply lookup_insert_eq | ].
  split.
  { unfold colorized. destruct (float_gt_1 x); rewrite !dom_insert_L;
      apply set_eq; intros k;
      rewrite !elem_of_union, ?elem_of_singleton, ?elem_of_empty; tauto. }
  unfold colorized, SafeAtoms_getitem.
  destruct (float_gt_1 x); repeat split; intros ->; cbn [default from_option];
    now rewrite ?lookup_insert_eq;
      repeat (rewrite lookup_insert_ne by discriminate; rewrite ?lookup_insert_eq).
Qed.

End ColorizeEffects.

(** ** More on the handler installer *)

Lemma drop_first_at_most_one (f : loc -> bool) (l : list loc) :
  length (List.filter f l) <= 1 ->
  drop_first f l = List.filter (fun x => negb (f x)) l.
Proof.
  induction l as [|y rest IH]; cbn; [ reflexivity | ].
  destruct (f y) eqn:Hy; cbn; intros Hlen.
  - assert (Hnone : List.filter f rest = []).
    { destruct (List.filter f rest); [ reflexivity | cbn in Hlen; lia ]. }
    clear IH Hlen. induction rest as [|z rest IH]; cbn; [ reflexivity | ].
    cbn in Hnone. destruct (f z); [ discriminate | ]. cbn. f_equal. now apply IH.
  - f_equal. now apply IH.
Qed.

Lemma drop_first_last_tagged (f : loc -> bool) (l : list loc) (x : loc) :
  (forall y, y ∈ l -> f y = false) -> f x = true ->
  drop_first f (l ++ [x]) = l.
Proof.
  intros Hl Hx. induction l as [|y rest IH]; cbn.
  - now rewrite Hx.
  - rewrite (Hl y) by set_solver. f_equal. apply IH.
    intros z Hz. apply Hl. set_solver.
Qed.

Section InstallerEffects.
Context {gu : Gunicorn}.

(** X11.  On the error or the access channel the configurator detaches
    the first tagged handler, if there is one, and appends a handler object
    that did not exist before.  That object is a RichHandler with rich
    tracebacks and the time format [[%X]], tagged, with the message-only
    formatter, and it shows source paths exactly on the error channel.  The
    output, format and stream given to the call play no part. *)
Theorem set_handler_installs_rich_handler (log : Channel) (output : option string)
    (fmt : string) (stream : option string) (w : World) :
  log = ErrorLog \/ log = AccessLog ->
  attached_allocated w log ->
  exists l,
    fst (_set_handler log output fmt stream w) = Returns tt
    /\ handler_heap w !! l = None
    /\ handlers (snd (_set_handler log output fmt stream w)) log
       = drop_first (tagged w) (handlers w log) ++ [l]
    /\ handler_heap (snd (_set_handler log output fmt stream w)) !! l
       = Some (mkHandler
                 (RichHandler true "[%X]"
                    (match log with ErrorLog => true | _ => false end))
                 true (Some "%(message)s")).
Proof.
  intros Hown Hall.
  destruct (set_handler_run log output fmt stream w Hown Hall)
    as (w' & Hrun & Hhs & Hheap & _).
  exists (fresh (dom (handler_heap w))). rewrite Hrun. cbn [fst snd].
  split; [ reflexivity | split; [ | split; [ exact Hhs | ] ] ].
  - apply not_elem_of_dom. apply is_fresh.
  - rewrite Hheap, lookup_insert_eq. destruct Hown as [->| ->]; reflexivity.
Qed.

(** X12.  One or more calls on a channel bring the number of its tagged
    handlers to the larger of 1 and the number it had: tagged handlers
    beyond the first are never detached. *)
Theorem configure_times_tagged_count (n : nat) (log : Channel)
    (output : option string) (fmt : string) (stream : option string) (w : World) :
  log = ErrorLog \/ log = AccessLog ->
  attached_allocated w log ->
  length (adapter_sinks (snd (configure_times (S n) log output fmt stream w)) log)
  = Nat.max 1 (length (adapter_sinks w log)).
Proof.
  intros Hown Hall.
  now destruct (configure_times_steps (S n) log output fmt stream w Hown Hall)
    as (_ & _ & Hcount & _).
Qed.

(** X13.  Configuring the error or the access channel changes that
    channel's handler list and allocates one handler object, nothing else:
    the lists of all other channels, the handler objects that existed (the
    detached one too), the colour map, the atoms objects, the console, the
    error records and the settings are as before. *)
Theorem set_handler_frame (log : Channel) (output : option string) (fmt : string)
    (stream : option string) (w : World) :
  log = ErrorLog \/ log = AccessLog ->
  attached_allocated w log ->
  (forall log', log' <> log ->
     handlers (snd (_set_handler log output fmt stream w)) log' = handlers w log')
  /\ (forall l h, handler_heap w !! l = Some h ->
        handler_heap (snd (_set_handler log output fmt stream w)) !! l = Some h)
  /\ CODE_COLOR_MAPPING (snd (_set_handler log output fmt stream w)) = CODE_COLOR_MAPPING w
  /\ heap (snd (_set_handler log output fmt stream w)) = heap w
  /\ console (snd (_set_handler log output fmt stream w)) = console w
  /\ error_records (snd (_set_handler log output fmt stream w)) = error_records w
  /\ cfg (snd (_set_handler log output fmt stream w)) = cfg w.
Proof.
  intros Hown Hall.
  destruct (set_handler_run log output fmt stream w Hown Hall)
    as (w' & Hrun & _ & Hheap & Hothers & Hmap & Hh & Hc & He & Hcfg).
  rewrite Hrun. cbn [snd].
  split; [ exact Hothers | split; [ | now repeat split ] ].
  intros l h Hl. rewrite Hheap, lookup_insert_ne; [ exact Hl | ].
  intros <-. apply (is_fresh (dom (handler_heap w))). now apply elem_of_dom_2 in Hl.
Qed.

(** X14.  With at most one tagged handler on the channel, a call leaves
    the untagged handlers in their order followed by the new handler, and a
    second call puts another new object in its place: the handler of the
    first call is detached, though it still exists. *)
Theorem reconfigure_replaces_handler_object (log : Channel) (output : option string)
    (fmt : string) (stream : option string) (w : World) :
  log = ErrorLog \/ log = AccessLog ->
  attached_allocated w log ->
  length (adapter_sinks w log) <= 1 ->
  exists l1 l2,
    l1 <> l2
    /\ handlers (snd (_set_handler log output fmt stream w)) log
       = foreign_sinks w log ++ [l1]
    /\ handlers (snd (configure_times 2 log output fmt stream w)) log
       = foreign_sinks w log ++ [l2]
    /\ is_Some (handler_heap (snd (configure_times 2 log output fmt stream w)) !! l1).
Proof.
  intros Hown Hall Hone.
  destruct (set_handler_run log output fmt stream w Hown Hall)
    as (w1 & Hrun1 & Hhs1 & Hheap1 & _).
  destruct (set_handler_step log output fmt stream w Hown Hall)
    as (_ & Hall1 & _ & _ & Hold1).
  rewrite Hrun1 in Hall1, Hold1. cbn [snd] in Hall1, Hold1.
  destruct (set_handler_run log output fmt stream w1 Hown Hall1)
    as (w2 & Hrun2 & Hhs2 & Hheap2 & _).
  set (l1 := fresh (dom (handler_heap w))) in *.
  set (l2 := fresh (dom (handler_heap w1))) in *.
  assert (Hl1 : handler_heap w1 !! l1 = Some (adapter_handler log)).
  { rewrite Hheap1. apply lookup_insert_eq. }
  assert (Hne : l1 <> l2).
  { intros E. apply (is_fresh (dom (handler_heap w1))). fold l2. rewrite <- E.
    now apply elem_of_dom_2 in Hl1. }
  assert (Hdrop : drop_first (tagged w) (handlers w log) = foreign_sinks w log).
  { now apply drop_first_at_most_one. }
  exists l1, l2. rewrite Hrun1. cbn [snd configure_times]. unfold bind.
  rewrite Hrun1, Hrun2. cbn [snd ret].
  split; [ exact Hne | split; [ | split ] ].
  - now rewrite Hhs1, Hdrop.
  - rewrite Hhs2, Hhs1, Hdrop. f_equal.
    apply drop_first_last_tagged.
    + intros y Hy. unfold tagged. rewrite Hold1.
      * unfold foreign_sinks in Hy. apply list_elem_of_In, List.filter_In in Hy.
        destruct Hy as [_ Hy]. now apply negb_true_iff in Hy.
      * apply Hall. unfold foreign_sinks in Hy.
        apply list_elem_of_In, List.filter_In in Hy. now apply list_elem_of_In.
    + unfold tagged. now rewrite Hl1.
  - rewrite Hheap2, lookup_insert_ne by (intros E; apply Hne; now rewrite E).
    rewrite Hl1. eauto.
Qed.

End InstallerEffects.

(** ** How an access call can end *)

Section AccessEndings.
Context {py : Python} {rich : Rich} {gu : Gunicorn}.

(** X15.  An access call returns normally in two situations and no other:
    logging is disabled; or the host delivers the atoms, the latency (or
    its placeholder) is a number, the formatted message is markup rich can
    read, and the atoms hold a status that is not empty. *)
Theorem access_returns_iff (r : Request) (w : World) :
  fst (access r w) = Returns tt
  <-> (logging_enabled (cfg w) = false
       \/ exists raw x t c rest,
            atoms r = Returns raw
            /\ float (atom raw "L") = Some x
            /\ from_markup (message_markup raw (float_gt_1 x)) = Returns t
            /\ raw !! "s" = Some (String c rest)).
Proof.
  rewrite access_outcome_correct. unfold access_outcome.
  destruct (logging_enabled (cfg w)); cbn [negb].
  2: { split; [ now left | reflexivity ]. }
  destruct (atoms r) as [raw|e].
  2: { split; [ discriminate | ].
       intros [H|(raw & x & t & c & rest & H & _)]; discriminate H. }
  destruct (float (atom raw "L")) as [x|] eqn:HL.
  2: { split; [ discriminate | ].
       intros [H|(raw' & x & t & c & rest & [= <-] & H & _)];
         [ discriminate H | rewrite HL in H; discriminate H ]. }
  destruct (from_markup (message_markup raw (float_gt_1 x))) as [t|e] eqn:Ht.
  2: { split; [ discriminate | ].
       intros [H|(raw' & x' & t & c & rest & [= <-] & Hx & H & _)];
         [ discriminate H | ].
       rewrite HL in Hx. injection Hx as <-. rewrite Ht in H. discriminate H. }
  destruct (raw !! "s") as [[|c rest]|] eqn:Hs.
  - split; [ discriminate | ].
    intros [H|(raw' & x' & t' & c & rest & [= <-] & _ & _ & H)];
      [ discriminate H | rewrite Hs in H; discriminate H ].
  - split; [ | reflexivity ].
    intros _. right. now exists raw, x, t, c, rest.
  - split; [ discriminate | ].
    intros [H|(raw' & x' & t' & c & rest & [= <-] & _ & _ & H)];
      [ discriminate H | rewrite Hs in H; discriminate H ].
Qed.

(** X16.  For atoms whose values are strings, the exceptions an access
    call lets through are: what the host's atoms raised; the conversion
    failure on the latency text; what rich raised on the message markup;
    [KeyError] for atoms without a status; [IndexError] for an empty
    status. *)
Theorem access_raises_only (r : Request) (e : exn) (w : World) :
  fst (access r w) = Raises e ->
  atoms r = Raises e
  \/ exists raw,
       atoms r = Returns raw
       /\ ((float (atom raw "L") = None /\ e = ValueError (atom raw "L"))
           \/ exists x,
                float (atom raw "L") = Some x
                /\ (from_markup (message_markup raw (float_gt_1 x)) = Raises e
                    \/ (raw !! "s" = None /\ e = KeyError "s")
                    \/ (raw !! "s" = Some EmptyString /\ e = IndexError))).
Proof.
  rewrite access_outcome_correct. unfold access_outcome.
  destruct (logging_enabled (cfg w)); cbn [negb]; [ | discriminate ].
  destruct (atoms r) as [raw|e0]; [ | intros [= ->]; now left ].
  intros H. right. exists raw. split; [ reflexivity | ].
  destruct (float (atom raw "L")) as [x|].
  2: { injection H as <-. now left. }
  right. exists x. split; [ reflexivity | ].
  destruct (from_markup (message_markup raw (float_gt_1 x))) as [t|e0].
  2: { injection H as <-. now left. }
  right. destruct (raw !! "s") as [[|c rest]|].
  - injection H as <-. now right.
  - discriminate H.
  - injection H as <-. now left.
Qed.

End AccessEndings.

(** ** The further theorems at concrete inputs *)

Lemma configured_store_allocated : attached_allocated configured_store ErrorLog.
Proof.
  intros l Hl.
  repeat (apply elem_of_cons in Hl as [->|Hl]; [ eexists; reflexivity | ]).
  now apply elem_of_nil in Hl.
Defined.

Lemma doubly_tagged_store_allocated : attached_allocated doubly_tagged_store ErrorLog.
Proof.
  intros l Hl.
  repeat (apply elem_of_cons in Hl as [->|Hl]; [ eexists; reflexivity | ]).
  now apply elem_of_nil in Hl.
Defined.

Lemma access_raise_is_silent_witness :
  console (snd (run_access (Returns malformed_latency_atoms) start)) = console start
  /\ error_records (snd (run_access (Returns malformed_latency_atoms) start))
     = error_records start
  /\ CODE_COLOR_MAPPING (snd (run_access (Returns malformed_latency_atoms) start))
     = CODE_COLOR_MAPPING start.
Proof.
  apply (access_raise_is_silent
           (py := CPython.python) (rich := Markup.rich) (gu := Glogging.gunicorn)
           (Returns malformed_latency_atoms) (ValueError "abc") start).
  reflexivity.
Defined.

Lemma access_prints_rendered_row_witness :
  fst (run_access (Returns slow_atoms) start) = Returns tt
  /\ error_records (snd (run_access (Returns slow_atoms) start)) = error_records start.
Proof.
  destruct (access_prints_rendered_row
              (py := CPython.python) (rich := Markup.rich) (gu := Glogging.gunicorn)
              (Returns slow_atoms) slow_atoms (Finite (5 # 2))
              (mkText ("GET /health? (2.5 s) "
                       +:+ String quote ("GET /health HTTP/1.1"
                                         +:+ String quote EmptyString))
                      "" [mkSpan 0 3 "bold blue"; mkSpan 4 11 "cyan";
                          mkSpan 12 12 "cyan"; mkSpan 14 17 "bold red"])
              "5" "03" start eq_refl eq_refl eq_refl eq_refl eq_refl eq_refl)
    as (Hret & _ & Herr).
  split; [ exact Hret | exact Herr ].
Defined.

Lemma access_reads_six_fields_witness :
  fst (run_access (Returns health_atoms) start)
  = fst (run_access (Returns health_atoms_with_host) start)
  /\ console (snd (run_access (Returns health_atoms) start))
     = console (snd (run_access (Returns health_atoms_with_host) start))
  /\ error_records (snd (run_access (Returns health_atoms) start))
     = error_records (snd (run_access (Returns health_atoms_with_host) start))
  /\ CODE_COLOR_MAPPING (snd (run_access (Returns health_atoms) start))
     = CODE_COLOR_MAPPING (snd (run_access (Returns health_atoms_with_host) start)).
Proof.
  apply (access_reads_six_fields
           (py := CPython.python) (rich := Markup.rich) (gu := Glogging.gunicorn)
           (Returns health_atoms) (Returns health_atoms_with_host)
           health_atoms health_atoms_with_host start eq_refl eq_refl).
  intros k Hk.
  repeat (apply elem_of_cons in Hk as [->|Hk]; [ reflexivity | ]).
  now apply elem_of_nil in Hk.
Defined.

Lemma colorize_atoms_failure_keeps_wrappers_witness :
  exists d',
    run_colorize_atoms 1%positive malformed_store
    = (Raises (ValueError "abc"),
       set_heap (<[1%positive := d']> (heap malformed_store)) malformed_store)
    /\ d' !! "U" = Some "[cyan]/health[/]"
    /\ d' !! "L" = Some "abc".
Proof.
  destruct (colorize_atoms_failure_keeps_wrappers (py := CPython.python)
              1%positive (SafeAtoms_init malformed_latency_atoms) malformed_store
              eq_refl eq_refl)
    as (d' & Hrun & HU & _ & _ & Hother).
  exists d'. split; [ exact Hrun | split; [ exact HU | ] ].
  rewrite Hother; [ reflexivity | ].
  intros Hin. repeat (apply elem_of_cons in Hin as [Hin|Hin]; [ discriminate Hin | ]).
  now apply elem_of_nil in Hin.
Defined.

Lemma colorize_atoms_twice_nests_witness :
  exists d'',
    run_colorize_atoms 1%positive (snd (run_colorize_atoms 1%positive health_store))
    = (Returns 1%positive,
       set_heap (<[1%positive := d'']> (heap health_store)) health_store)
    /\ d'' !! "U" = Some "[cyan][cyan]/health[/][/]"
    /\ d'' !! "m" = Some "[blue bold][blue bold]GET[/][/]"
    /\ d'' !! "L" = Some "0.003".
Proof.
  destruct (colorize_atoms_twice_nests (py := CPython.python)
              1%positive (SafeAtoms_init health_atoms) (default NaN (CPython.parse "0.003"))
              health_store eq_refl eq_refl eq_refl)
    as (d'' & Hrun & HU & _ & Hm & HL).
  exists d''. split; [ exact Hrun | split; [ exact HU | split; [ exact Hm | exact HL ] ] ].
Defined.

Lemma colorize_atoms_twice_slow_raises_witness :
  fst (run_colorize_atoms 1%positive (snd (run_colorize_atoms 1%positive slow_store)))
  = Raises (ValueError "[red bold]2.5[/]").
Proof.
  apply (colorize_atoms_twice_slow_raises (py := CPython.python)
           1%positive (SafeAtoms_init slow_atoms) (Finite (5 # 2))
           slow_store eq_refl eq_refl eq_refl eq_refl).
Defined.

Lemma colorize_atoms_adds_missing_fields_witness :
  sparse_atoms !! "U" = None
  /\ exists d',
       heap (snd (run_colorize_atoms 1%positive sparse_store)) !! 1%positive = Some d'
       /\ d' !! "U" = Some "[cyan]-[/]".
Proof.
  split; [ reflexivity | ].
  destruct (colorize_atoms_adds_missing_fields (py := CPython.python)
              1%positive (SafeAtoms_init sparse_atoms) (default NaN (CPython.parse "0.003"))
              sparse_store eq_refl eq_refl)
    as (d' & Hd' & _ & HU & _).
  exists d'. split; [ exact Hd' | apply HU; reflexivity ].
Defined.

Lemma set_handler_installs_rich_handler_witness :
  exists l,
    fst (_set_handler (gu := Glogging.gunicorn) ErrorLog (Some "/var/log/error.log")
           "%(asctime)s %(message)s" None configured_store) = Returns tt
    /\ handlers (snd (_set_handler (gu := Glogging.gunicorn) ErrorLog
                        (Some "/var/log/error.log") "%(asctime)s %(message)s" None
                        configured_store)) ErrorLog
       = [2%positive; l]
    /\ handler_heap (snd (_set_handler (gu := Glogging.gunicorn) ErrorLog
                            (Some "/var/log/error.log") "%(asctime)s %(message)s" None
                            configured_store)) !! l
       = Some (mkHandler (RichHandler true "[%X]" true) true (Some "%(message)s")).
Proof.
  destruct (set_handler_installs_rich_handler (gu := Glogging.gunicorn)
              ErrorLog (Some "/var/log/error.log") "%(asctime)s %(message)s" None
              configured_store (or_introl eq_refl) configured_store_allocated)
    as (l & Hret & _ & Hhs & Hobj).
  exists l. split; [ exact Hret | split; [ exact Hhs | exact Hobj ] ].
Defined.

Lemma configure_times_tagged_count_witness :
  length (adapter_sinks doubly_tagged_store ErrorLog) = 2
  /\ length (adapter_sinks (snd (run_configure 3 ErrorLog doubly_tagged_store)) ErrorLog)
     = 2.
Proof.
  split; [ reflexivity | ].
  exact (configure_times_tagged_count (gu := Glogging.gunicorn)
           2 ErrorLog (Some "-") "%(message)s" None doubly_tagged_store
           (or_introl eq_refl) doubly_tagged_store_allocated).
Defined.

Lemma set_handler_frame_witness :
  handlers (snd (_set_handler (gu := Glogging.gunicorn) AccessLog None "" None
                   configured_store)) ErrorLog
  = [2%positive; 1%positive]
  /\ handler_heap (snd (_set_handler (gu := Glogging.gunicorn) AccessLog None "" None
                          configured_store)) !! 1%positive
     = Some host_stream_handler.
Proof.
  assert (Hall : attached_allocated configured_store AccessLog).
  { intros l Hl. now apply elem_of_nil in Hl. }
  destruct (set_handler_frame (gu := Glogging.gunicorn) AccessLog None "" None
              configured_store (or_intror eq_refl) Hall)
    as (Hothers & Hobjs & _).
  split.
  - apply (Hothers ErrorLog). discriminate.
  - apply Hobjs. reflexivity.
Defined.

Lemma reconfigure_replaces_handler_object_witness :
  exists l1 l2,
    l1 <> l2
    /\ handlers (snd (_set_handler (gu := Glogging.gunicorn) ErrorLog (Some "-")
                        "%(message)s" None configured_store)) ErrorLog
       = [2%positive] ++ [l1]
    /\ handlers (snd (run_configure 2 ErrorLog configured_store)) ErrorLog
       = [2%positive] ++ [l2].
Proof.
  destruct (reconfigure_replaces_handler_object (gu := Glogging.gunicorn)
              ErrorLog (Some "-") "%(message)s" None configured_store
              (or_introl eq_refl) configured_store_allocated (le_n 1))
    as (l1 & l2 & Hne & H1 & H2 & _).
  exists l1, l2. split; [ exact Hne | split; [ exact H1 | exact H2 ] ].
Defined.

Lemma access_raises_only_witness :
  exists raw,
    Returns atoms_without_status = Returns raw
    /\ raw !! "s" = None
    /\ fst (run_access (Returns atoms_without_status) start) = Raises (KeyError "s").
Proof.
  assert (Hraise : fst (run_access (Returns atoms_without_status) start)
                   = Raises (KeyError "s")) by reflexivity.
  destruct (access_raises_only
              (py := CPython.python) (rich := Markup.rich) (gu := Glogging.gunicorn)
              (Returns atoms_without_status) (KeyError "s") start Hraise)
    as [Habs|(raw & Hraw & _)].
  - discriminate Habs.
  - exists raw. injection Hraw as <-. split; [ reflexivity | split; reflexivity ].
Defined.
